(** * River Bank System: the account-ledger core

    A shallow embedding of [river_bank_system.users], [river_bank_system.transactions]
    and [river_bank_system.actions], and the properties of deposits, withdrawals,
    transfers, registration, column access and the seven-day transaction query.

    Conventions of the embedding.
    - A Python method becomes a computation [M A] on the [world]: the two SQLite
      tables with their AUTOINCREMENT counters, the clock, and what the program
      leaves behind (committed statements, log lines).  An exception is a
      [Raise e] result; the world at the point where it was raised is kept, as
      in Python.  A method that returns [None] returns [tt].
    - The connections are open and both tables exist: [__init__], [__enter__],
      [__exit__] and [close_db] are not part of the embedding.  Every statement
      runs in a [with self.db_object] block of its own, so it is committed when
      it returns and leaves no trace when it raises.
    - Monetary amounts (Python [float], SQLite [REAL]) are binary64 floats,
      [PrimFloat.float], with their rounding, infinities and NaN: the methods
      take an amount as their signatures type it, as a [float].  A Python
      [int] is a [Z], which SQLite takes only within 64 signed bits.
    - A timestamp is the number of seconds since 1970-01-01 00:00:00 UTC that its
      SQLite text ['YYYY-MM-DD HH:MM:SS'] denotes; comparing two such texts is
      comparing these numbers.
    - A statement that reaches the SQLite engine may fail with
      [sqlite3.OperationalError] (locked or unreachable database, I/O error).
      The world carries the schedule of these faults: one flag per statement, in
      order; past the end of the schedule the store is healthy. *)

From Stdlib Require Import String DecimalString ZArith Floats Bool List Lia.
From Stdlib Require Import Permutation Sorted.
Import ListNotations.

Local Open Scope string_scope.
Local Open Scope Z_scope.
Local Open Scope list_scope.

(** ** Python values, exceptions and the effect monad *)

(** The exceptions the modelled code raises or handles.  Only [ValueError]
    carries the message: it is what tells an invalid amount from an invalid
    selector or a disallowed column. *)
Inductive exn : Type :=
| ValueError (msg : string)
| TypeError
| OverflowError
| IntegrityError      (* sqlite3.IntegrityError: a constraint failed *)
| OperationalError.   (* sqlite3.OperationalError: the store is at fault *)

Inductive result (A : Type) : Type :=
| Ok (a : A)
| Raise (e : exn).
Arguments Ok {A} a.
Arguments Raise {A} e.

(** A value bound to a statement or held by a cell: [None]/NULL, [int]/INTEGER,
    [float]/REAL, [str]/TEXT (a [str] by its UTF-8 text). *)
Inductive value : Type :=
| VNull
| VInt (n : Z)
| VReal (x : float)
| VText (s : string).

Inductive level : Type := INFO | WARNING | ERROR.

(** Rows of [tbl_accounts] and [tbl_transactions].  Every account cell but the
    row id is dynamically typed, as SQLite has it and as
    [set_column_from_username] (whose [new_data] is [Any]) can leave it.  The
    only writer of [tbl_transactions] is [log_transaction], whose parameters are
    typed. *)
Record account : Type := mkAccount {
  acc_id : Z;
  acc_username : value;
  acc_display_name : value;
  acc_password_hash : value;
  acc_current_balance : value;
  acc_savings_balance : value
}.

Record transaction : Type := mkTransaction {
  txn_id : Z;
  txn_username : string;
  txn_transaction_type : string;
  txn_amount : float;
  txn_account : string;
  txn_timestamp : Z
}.

(** The statements that changed a table, in the order they were committed. *)
Inductive event : Type :=
| UpdatedAccount (column username : string) (stored : value)
| InsertedAccount (row : account)
| InsertedTransaction (row : transaction).

Record world : Type := mkWorld {
  tbl_accounts : list account;
  seq_accounts : Z;              (* sqlite_sequence of tbl_accounts *)
  tbl_transactions : list transaction;
  seq_transactions : Z;          (* sqlite_sequence of tbl_transactions *)
  clock : Z;                     (* the store's time, in seconds, UTC *)
  faults : list bool;            (* OperationalError schedule *)
  trace : list event;            (* committed writes, oldest first *)
  log : list level               (* lines handed to the loggers, oldest first *)
}.

Definition set_tbl_accounts (t : list account) (w : world) : world :=
  mkWorld t (seq_accounts w) (tbl_transactions w) (seq_transactions w)
          (clock w) (faults w) (trace w) (log w).
Definition set_seq_accounts (n : Z) (w : world) : world :=
  mkWorld (tbl_accounts w) n (tbl_transactions w) (seq_transactions w)
          (clock w) (faults w) (trace w) (log w).
Definition set_tbl_transactions (t : list transaction) (w : world) : world :=
  mkWorld (tbl_accounts w) (seq_accounts w) t (seq_transactions w)
          (clock w) (faults w) (trace w) (log w).
Definition set_seq_transactions (n : Z) (w : world) : world :=
  mkWorld (tbl_accounts w) (seq_accounts w) (tbl_transactions w) n
          (clock w) (faults w) (trace w) (log w).
Definition set_faults (f : list bool) (w : world) : world :=
  mkWorld (tbl_accounts w) (seq_accounts w) (tbl_transactions w) (seq_transactions w)
          (clock w) f (trace w) (log w).
Definition set_trace (t : list event) (w : world) : world :=
  mkWorld (tbl_accounts w) (seq_accounts w) (tbl_transactions w) (seq_transactions w)
          (clock w) (faults w) t (log w).
Definition set_log (l : list level) (w : world) : world :=
  mkWorld (tbl_accounts w) (seq_accounts w) (tbl_transactions w) (seq_transactions w)
          (clock w) (faults w) (trace w) l.

(** State and exceptions: a computation returns its result and the world it
    left, also when it raises. *)
Definition M (A : Type) : Type := world -> result A * world.

Definition ret {A} (a : A) : M A := fun w => (Ok a, w).
Definition raise {A} (e : exn) : M A := fun w => (Raise e, w).
Definition bind {A B} (c : M A) (k : A -> M B) : M B :=
  fun w => match c w with
           | (Ok a, w') => k a w'
           | (Raise e, w') => (Raise e, w')
           end.
Definition gets {A} (f : world -> A) : M A := fun w => (Ok (f w), w).
Definition modify (f : world -> world) : M unit := fun w => (Ok tt, f w).
Definition lift {A} (r : result A) : M A := fun w => (r, w).

Declare Scope py_scope.
Delimit Scope py_scope with py.
Notation "x <- c ;; k" := (bind c (fun x => k))
  (at level 61, c at next level, right associativity) : py_scope.
Notation "c ;; k" := (bind c (fun _ => k))
  (at level 61, right associativity) : py_scope.
Local Open Scope py_scope.

(** [try: body  except sqlite3.OperationalError as error: handler] *)
Definition try_except_OperationalError {A} (body handler : M A) : M A :=
  fun w => match body w with
           | (Raise OperationalError, w') => handler w'
           | other => other
           end.

(** [self.logger.info(..)], [.warning(..)], [.error(..)] *)
Definition logger (lvl : level) : M unit :=
  modify (fun w => set_log (log w ++ [lvl]) w).

(** [x in (..)] on strings. *)
Definition contains (x : string) (l : list string) : bool :=
  existsb (String.eqb x) l.

(** What the repository takes from its libraries and the development leaves
    open: bcrypt's salted hash ([crypto.hash_bcrypt] is [bcrypt.hashpw] under a
    fresh salt), Python's [float] on a [str], and SQLite's two conversions
    between text and numbers (a text that looks like a number, as the INTEGER
    or REAL it denotes; an INTEGER or REAL rendered as text). *)
Class Platform : Type := {
  hash_bcrypt : string -> string;
  float_of_str : string -> result float;
  numeric_of_text : string -> option value;
  text_of_number : value -> string
}.

(** The float nearest to an integer (ties to even); an infinity beyond the
    range of the floats. *)
Definition float_of_Z (n : Z) : float :=
  SF2Prim (binary_normalize prec emax n 0 false).

(** The integer part of a finite float, towards zero. *)
Definition truncate (x : float) : option Z :=
  match Prim2SF x with
  | S754_zero _ => Some 0
  | S754_finite s m e =>
      let magnitude := if 0 <=? e then Zpos m * 2 ^ e else Zpos m / 2 ^ (- e) in
      Some (if s then - magnitude else magnitude)
  | S754_infinity _ | S754_nan => None
  end.

(** Python's [float(x)] on what a cell can hold. *)
Definition py_float {P : Platform} (x : value) : result float :=
  match x with
  | VNull => Raise TypeError
  | VInt n =>
      if is_infinity (float_of_Z n) then Raise OverflowError else Ok (float_of_Z n)
  | VReal q => Ok q
  | VText s => float_of_str s
  end.

(** ** The SQLite engine, as far as the five statements of the program go *)
Module Sqlite.
Section WithPlatform.
Context {P : Platform}.

(** Every statement that reaches the engine takes the next flag of the fault
    schedule; a set flag is an [OperationalError] and the statement has no
    effect (the connection's [with] block rolls back). *)
Definition execute : M unit :=
  fun w => match faults w with
           | [] => (Ok tt, w)
           | false :: rest => (Ok tt, set_faults rest w)
           | true :: rest => (Raise OperationalError, set_faults rest w)
           end.

Definition commit (e : event) : M unit :=
  modify (fun w => set_trace (trace w ++ [e]) w).

Inductive column : Type :=
| Cid | Cusername | Cdisplay_name | Cpassword_hash | Ccurrent_balance | Csavings_balance.

(** Name resolution against the schema of [tbl_accounts]. *)
Definition resolve (name : string) : option column :=
  if String.eqb name "id" then Some Cid
  else if String.eqb name "username" then Some Cusername
  else if String.eqb name "display_name" then Some Cdisplay_name
  else if String.eqb name "password_hash" then Some Cpassword_hash
  else if String.eqb name "current_balance" then Some Ccurrent_balance
  else if String.eqb name "savings_balance" then Some Csavings_balance
  else None.

Definition cell (c : column) (r : account) : value :=
  match c with
  | Cid => VInt (acc_id r)
  | Cusername => acc_username r
  | Cdisplay_name => acc_display_name r
  | Cpassword_hash => acc_password_hash r
  | Ccurrent_balance => acc_current_balance r
  | Csavings_balance => acc_savings_balance r
  end.

(** [WHERE username = ?] with a [str] bound to the parameter. *)
Definition matches (username : string) (r : account) : bool :=
  match acc_username r with
  | VText s => String.eqb s username
  | _ => false
  end.

(** SQLite's INTEGER: 64 signed bits. *)
Definition int64 (n : Z) : bool := (- 2 ^ 63 <=? n) && (n <? 2 ^ 63).

(** A REAL as a REAL column gives it back.  SQLite keeps a REAL without
    fraction as an integer and turns it into a REAL again when it is read:
    the sign of a zero is lost, every other number is what it was. *)
Definition real (x : float) : float :=
  if is_zero x then 0%float else x.

(** A Python value as [sqlite3] binds it to a [?]: a NaN is bound as NULL,
    and an [int] outside 64 signed bits is refused with [OverflowError]
    before the statement runs. *)
Definition bind (v : value) : result value :=
  match v with
  | VInt n => if int64 n then Ok v else Raise OverflowError
  | VReal x => Ok (if is_nan x then VNull else v)
  | VNull | VText _ => Ok v
  end.

(** What a REAL column holds once a Python [float] was bound and stored. *)
Definition stored (x : float) : value :=
  if is_nan x then VNull else VReal (real x).

(** The integer a float is equal to, if there is one. *)
Definition whole (x : float) : option Z :=
  match truncate x with
  | Some n => if (float_of_Z n =? x)%float then Some n else None
  | None => None
  end.

(** A REAL that holds an INTEGER, as that integer. *)
Definition integral (x : float) : option Z :=
  match whole x with
  | Some n => if int64 n then Some n else None
  | None => None
  end.

(** Column affinity, applied to a value before it is stored: the row id
    (INTEGER PRIMARY KEY) takes what converts to an integer without loss, a
    TEXT column renders numbers as text, a REAL column turns integers and
    numeric text into reals.  What does not convert is kept as it was bound. *)
Definition affinity (c : column) (v : value) : value :=
  match c with
  | Cid =>
      match v with
      | VReal x => match integral x with Some n => VInt n | None => v end
      | VText s =>
          match numeric_of_text s with
          | Some (VInt n) => VInt n
          | Some (VReal x) => match integral x with Some n => VInt n | None => v end
          | _ => v
          end
      | _ => v
      end
  | Cusername | Cdisplay_name | Cpassword_hash =>
      match v with
      | VInt _ | VReal _ => VText (text_of_number v)
      | _ => v
      end
  | Ccurrent_balance | Csavings_balance =>
      match v with
      | VInt n => VReal (float_of_Z n)
      | VReal x => VReal (real x)
      | VText s =>
          match numeric_of_text s with
          | Some (VInt n) => VReal (float_of_Z n)
          | Some (VReal x) => VReal (real x)
          | _ => v
          end
      | VNull => v
      end
  end.

(** SQL [=] on two non-NULL values of the model; an INTEGER and a REAL are
    compared as the numbers they are, without rounding. *)
Definition sql_eqb (a b : value) : bool :=
  match a, b with
  | VInt m, VInt n => m =? n
  | VReal x, VReal y => (x =? y)%float
  | VInt m, VReal y => match whole y with Some n => m =? n | None => false end
  | VReal x, VInt n => match whole x with Some m => m =? n | None => false end
  | VText s, VText t => String.eqb s t
  | _, _ => false
  end.

(** The constraints of the schema on a value about to be stored in [c]:
    INTEGER PRIMARY KEY takes integers only (datatype mismatch), the three
    text columns are NOT NULL. *)
Definition admissible (c : column) (v : value) : bool :=
  match c, v with
  | Cid, VInt _ => true
  | Cid, _ => false
  | (Cusername | Cdisplay_name | Cpassword_hash), VNull => false
  | _, _ => true
  end.

(** [id] and [username] are unique. *)
Definition unique (c : column) : bool :=
  match c with
  | Cid | Cusername => true
  | _ => false
  end.

Definition store (c : column) (v : value) (r : account) : account :=
  match c with
  | Cid =>
      mkAccount (match v with VInt n => n | _ => acc_id r end) (acc_username r)
                (acc_display_name r) (acc_password_hash r)
                (acc_current_balance r) (acc_savings_balance r)
  | Cusername =>
      mkAccount (acc_id r) v (acc_display_name r) (acc_password_hash r)
                (acc_current_balance r) (acc_savings_balance r)
  | Cdisplay_name =>
      mkAccount (acc_id r) (acc_username r) v (acc_password_hash r)
                (acc_current_balance r) (acc_savings_balance r)
  | Cpassword_hash =>
      mkAccount (acc_id r) (acc_username r) (acc_display_name r) v
                (acc_current_balance r) (acc_savings_balance r)
  | Ccurrent_balance =>
      mkAccount (acc_id r) (acc_username r) (acc_display_name r)
                (acc_password_hash r) v (acc_savings_balance r)
  | Csavings_balance =>
      mkAccount (acc_id r) (acc_username r) (acc_display_name r)
                (acc_password_hash r) (acc_current_balance r) v
  end.

(** The rows of [UPDATE tbl_accounts SET c = v WHERE username = ?]. *)
Definition updated_rows (c : column) (username : string) (v : value)
    (tbl : list account) : list account :=
  map (fun r => if matches username r then store c v r else r) tbl.

(** A uniqueness conflict of the update: a row it leaves alone already holds
    the value, or it writes the value to more than one row. *)
Definition conflicts (c : column) (username : string) (v : value)
    (tbl : list account) : bool :=
  unique c &&
  (existsb (fun r => negb (matches username r) && sql_eqb (cell c r) v) tbl
   || (1 <? Z.of_nat (length (filter (matches username) tbl)))).

(** [SELECT column FROM tbl_accounts WHERE username = ?] and [fetchone()]:
    [None] when no row matches, else the one-column row. *)
Definition select_account (name username : string) : M (option value) :=
  execute ;;
  match resolve name with
  | None => raise OperationalError          (* no such column *)
  | Some c =>
      tbl <- gets tbl_accounts ;;
      ret (option_map (cell c) (find (matches username) tbl))
  end.

(** [UPDATE tbl_accounts SET column = ? WHERE username = ?]; matching no row
    is not an error.  [sqlite3] compiles the statement against the schema the
    connection holds, binds the parameters, and only then runs it. *)
Definition update_account (name username : string) (new_data : value) : M unit :=
  match resolve name with
  | None => raise OperationalError          (* no such column *)
  | Some c =>
      bound <- lift (bind new_data) ;;
      execute ;;
      tbl <- gets tbl_accounts ;;
      let v := affinity c bound in
      if existsb (matches username) tbl then
        if negb (admissible c v) || conflicts c username v tbl
        then raise IntegrityError
        else modify (set_tbl_accounts (updated_rows c username v tbl)) ;;
             commit (UpdatedAccount name username v)
      else commit (UpdatedAccount name username v)
  end.

(** AUTOINCREMENT: one more than the largest row id the table has or ever had. *)
Definition next_id (seq : Z) (ids : list Z) : Z :=
  fold_right Z.max seq ids + 1.

(** [INSERT INTO tbl_accounts (username, display_name, password_hash,
    current_balance, savings_balance) VALUES (?, ?, ?, ?, ?)] *)
Definition insert_account (username display_name password_hash : string)
    (current_balance savings_balance : float) : M unit :=
  execute ;;
  tbl <- gets tbl_accounts ;;
  if existsb (matches username) tbl
  then raise IntegrityError                 (* UNIQUE constraint failed *)
  else
    seq <- gets seq_accounts ;;
    let row := mkAccount (next_id seq (map acc_id tbl)) (VText username)
                         (VText display_name) (VText password_hash)
                         (stored current_balance) (stored savings_balance) in
    modify (set_tbl_accounts (tbl ++ [row])) ;;
    modify (set_seq_accounts (acc_id row)) ;;
    commit (InsertedAccount row).

(** [INSERT INTO tbl_transactions (username, transaction_type, amount,
    account) VALUES (?, ?, ?, ?)]; the timestamp is the column's default,
    CURRENT_TIMESTAMP.  [amount] is REAL NOT NULL, and a NaN is bound as
    NULL. *)
Definition insert_transaction (username transaction_type : string)
    (amount : float) (account : string) : M unit :=
  execute ;;
  if is_nan amount
  then raise IntegrityError                 (* NOT NULL constraint failed *)
  else
    tbl <- gets tbl_transactions ;;
    seq <- gets seq_transactions ;;
    now <- gets clock ;;
    let row := mkTransaction (next_id seq (map txn_id tbl)) username
                             transaction_type (real amount) account now in
    modify (set_tbl_transactions (tbl ++ [row])) ;;
    modify (set_seq_transactions (txn_id row)) ;;
    commit (InsertedTransaction row).

(** [date('now', '-7 days')]: the text ['YYYY-MM-DD'] of the day seven days
    before today.  Against a ['YYYY-MM-DD HH:MM:SS'] text it compares as the
    first second of that day. *)
Definition date_now_minus_7_days (now : Z) : Z :=
  (now / 86400 - 7) * 86400.

(** [WHERE username = ? AND timestamp >= date('now', '-7 days')] *)
Definition selected (username : string) (now : Z) (t : transaction) : bool :=
  String.eqb (txn_username t) username
  && (date_now_minus_7_days now <=? txn_timestamp t).

(** [ORDER BY timestamp DESC].  SQLite leaves the order of rows with equal
    timestamps open; this sort keeps them in table order. *)
Fixpoint insert_desc (t : transaction) (l : list transaction) : list transaction :=
  match l with
  | [] => [t]
  | u :: rest =>
      if txn_timestamp u <=? txn_timestamp t
      then t :: u :: rest
      else u :: insert_desc t rest
  end.

Definition order_by_timestamp_desc (l : list transaction) : list transaction :=
  fold_right insert_desc [] l.

(** [SELECT * FROM tbl_transactions WHERE .. ORDER BY timestamp DESC] and
    [fetchall()]. *)
Definition select_transactions (username : string) : M (list transaction) :=
  execute ;;
  tbl <- gets tbl_transactions ;;
  now <- gets clock ;;
  ret (order_by_timestamp_desc (filter (selected username now) tbl)).

End WithPlatform.
End Sqlite.

(** ** [users.UsersDB] *)
Module UsersDB.
Section WithPlatform.
Context {P : Platform}.

Definition ALLOWED_COLUMNS : list string :=
  ["id"; "username"; "display_name"; "password_hash"; "current_balance";
   "savings_balance"].

Definition create_new_user (username display_name password : string)
    (current_balance savings_balance : float) : M unit :=
  try_except_OperationalError
    (let password_hash := hash_bcrypt password in
     Sqlite.insert_account username display_name password_hash
                           current_balance savings_balance)
    (logger ERROR).

(** Python's [None] is [VNull]: the method returns [row[0]], which is [None]
    for a NULL cell, and [None] when [fetchone()] found no row or the store was
    at fault. *)
Definition get_column_from_username (column target_username : string) : M value :=
  if negb (contains column ALLOWED_COLUMNS)
  then raise (ValueError (String.append "Disallowed column: " column))
  else
    try_except_OperationalError
      (row <- Sqlite.select_account column target_username ;;
       match row with
       | Some data => ret data
       | None => logger WARNING ;; ret VNull
       end)
      (logger ERROR ;; ret VNull).

Definition set_column_from_username (column target_username : string)
    (new_data : value) : M unit :=
  if negb (contains column ALLOWED_COLUMNS)
  then raise (ValueError (String.append "Disallowed column: " column))
  else
    try_except_OperationalError
      (Sqlite.update_account column target_username new_data)
      (logger ERROR).

Definition get_password_hash (username : string) : M value :=
  get_column_from_username "password_hash" username.

Definition get_current_balance (username : string) : M float :=
  data <- get_column_from_username "current_balance" username ;;
  lift (py_float data).

Definition get_savings_balance (username : string) : M float :=
  data <- get_column_from_username "savings_balance" username ;;
  lift (py_float data).

Definition get_user_exists (username : string) : M bool :=
  data <- get_column_from_username "username" username ;;
  ret (match data with VNull => false | _ => true end).

Definition add_current_balance (username : string) (balance : float) : M unit :=
  previous_balance <- get_current_balance username ;;
  let new_balance := (previous_balance + balance)%float in
  set_column_from_username "current_balance" username (VReal new_balance).

Definition add_savings_balance (username : string) (balance : float) : M unit :=
  previous_balance <- get_savings_balance username ;;
  let new_balance := (previous_balance + balance)%float in
  set_column_from_username "savings_balance" username (VReal new_balance).

End WithPlatform.

(** Python's [int(x)] on what a cell can hold; [int] on a [str] is the
    library's. *)
Section AccountNumber.
Variable int_of_str : string -> result Z.

Definition py_int (x : value) : result Z :=
  match x with
  | VNull => Raise TypeError
  | VInt n => Ok n
  | VReal q =>
      match truncate q with
      | Some n => Ok n
      | None =>
          if is_nan q
          then Raise (ValueError "cannot convert float NaN to integer")
          else Raise OverflowError
      end
  | VText s => int_of_str s
  end.

Definition get_account_number (username : string) : M Z :=
  data <- get_column_from_username "id" username ;;
  lift (py_int data).

End AccountNumber.
End UsersDB.

(** ** [transactions.TransactionsDB] *)
Module TransactionsDB.

Definition log_transaction (username transaction_type : string) (amount : float)
    (account : string) : M unit :=
  try_except_OperationalError
    (Sqlite.insert_transaction username transaction_type amount account)
    (logger ERROR).

Definition get_transactions (username : string) : M (list transaction) :=
  try_except_OperationalError
    (Sqlite.select_transactions username)
    (logger ERROR ;; ret []).

End TransactionsDB.

(** ** [actions.Actions]; [self.username] is the first argument *)
Module Actions.
Section WithPlatform.
Context {P : Platform}.

Definition deposit_into_account (username : string) (value : float)
    (target_account : string) : M unit :=
  if (value <=? 0)%float
  then raise (ValueError "Deposit amount must be positive")
  else if negb (contains target_account ["current"; "savings"])
  then raise (ValueError "target_account must be 'current' or 'savings'")
  else if String.eqb target_account "current" then
    UsersDB.add_current_balance username value ;;
    TransactionsDB.log_transaction username "deposit" value "current" ;;
    logger INFO
  else if String.eqb target_account "savings" then
    UsersDB.add_savings_balance username value ;;
    TransactionsDB.log_transaction username "deposit" value "savings" ;;
    logger INFO
  else ret tt.

Definition withdraw_from_account (username : string) (value : float)
    (target_account : string) : M unit :=
  if (value <=? 0)%float
  then raise (ValueError "Withdrawal amount must be positive")
  else if negb (contains target_account ["current"; "savings"])
  then raise (ValueError "target_account must be 'current' or 'savings'")
  else if String.eqb target_account "current" then
    UsersDB.add_current_balance username (- value)%float ;;
    TransactionsDB.log_transaction username "withdraw" value "current" ;;
    logger INFO
  else if String.eqb target_account "savings" then
    UsersDB.add_savings_balance username (- value)%float ;;
    TransactionsDB.log_transaction username "withdraw" value "savings" ;;
    logger INFO
  else ret tt.

Definition transfer_between_accounts (username : string) (value : float)
    (source_account : string) : M unit :=
  if (value <=? 0)%float
  then raise (ValueError "Transfer amount must be positive")
  else if negb (contains source_account ["current"; "savings"])
  then raise (ValueError "source_account must be 'current' or 'savings'")
  else if String.eqb source_account "current" then
    UsersDB.add_current_balance username (- value)%float ;;
    UsersDB.add_savings_balance username value ;;
    TransactionsDB.log_transaction username "transfer" value "current_to_savings" ;;
    logger INFO
  else if String.eqb source_account "savings" then
    UsersDB.add_current_balance username value ;;
    UsersDB.add_savings_balance username (- value)%float ;;
    TransactionsDB.log_transaction username "transfer" value "savings_to_current" ;;
    logger INFO
  else ret tt.

End WithPlatform.
End Actions.

(** ** The vocabulary of the specification *)

(** The error taxonomy: which exceptions of the code each name stands for. *)
Definition InvalidAmount (e : exn) : Prop :=
  e = ValueError "Deposit amount must be positive" \/
  e = ValueError "Withdrawal amount must be positive" \/
  e = ValueError "Transfer amount must be positive".

Definition InvalidAccountSelector (e : exn) : Prop :=
  e = ValueError "target_account must be 'current' or 'savings'" \/
  e = ValueError "source_account must be 'current' or 'savings'".

Definition InvalidColumn (e : exn) : Prop :=
  exists column, e = ValueError (String.append "Disallowed column: " column).

Definition DuplicateUser (e : exn) : Prop := e = IntegrityError.

(** The account record of a user, and one of its two balances. *)
Definition account_of (username : string) (w : world) : option account :=
  find (Sqlite.matches username) (tbl_accounts w).

Definition balance_of (selector username : string) (w : world) : option value :=
  option_map (if String.eqb selector "current"
              then acc_current_balance else acc_savings_balance)
             (account_of username w).

Definition other (selector : string) : string :=
  if String.eqb selector "current" then "savings" else "current".

Definition valid_selector (selector : string) : Prop :=
  selector = "current" \/ selector = "savings".

(** No storage fault is scheduled. *)
Definition healthy (w : world) : Prop := faults w = [].

(** The next statement finds the store at fault. *)
Definition unreachable (w : world) : Prop := exists rest, faults w = true :: rest.

(** The row id the next ledger record gets. *)
Definition next_transaction_id (w : world) : Z :=
  Sqlite.next_id (seq_transactions w) (map txn_id (tbl_transactions w)).

(** The ledger record an operation appends in [w], with the amount as the
    ledger holds it. *)
Definition ledger_record (w : world) (username kind : string) (amount : float)
    (label : string) : transaction :=
  mkTransaction (next_transaction_id w) username kind amount label (clock w).

(** The world after a committed balance update and after a committed append. *)
Definition after_update (name : string) (c : Sqlite.column) (username : string)
    (v : value) (w : world) : world :=
  let w1 := set_tbl_accounts (Sqlite.updated_rows c username v (tbl_accounts w)) w in
  set_trace (trace w1 ++ [UpdatedAccount name username v]) w1.

Definition after_append (username kind : string) (amount : float) (label : string)
    (w : world) : world :=
  let row := ledger_record w username kind amount label in
  let w1 := set_tbl_transactions (tbl_transactions w ++ [row]) w in
  let w2 := set_seq_transactions (txn_id row) w1 in
  set_trace (trace w2 ++ [InsertedTransaction row]) w2.

Definition after_log (lvl : level) (w : world) : world :=
  set_log (log w ++ [lvl]) w.

(** "Within the last seven days", as the specification words the window. *)
Definition within_last_7_days (now timestamp : Z) : Prop :=
  now - 7 * 86400 <= timestamp.

(** No balance was written and no ledger record appended between two worlds. *)
Definition nothing_written (w w' : world) : Prop :=
  tbl_accounts w' = tbl_accounts w /\
  tbl_transactions w' = tbl_transactions w /\
  trace w' = trace w.

(** [get_current_balance] or [get_savings_balance], by selector. *)
Definition read_balance {P : Platform} (selector : string) : string -> M float :=
  if String.eqb selector "current"
  then UsersDB.get_current_balance
  else UsersDB.get_savings_balance.

(** Newest first: [a] stands before [b] only if [b] is not newer. *)
Definition newest_first (a b : transaction) : Prop :=
  txn_timestamp b <= txn_timestamp a.

(** A computation keeps [R] when every outcome of it, a return or an
    exception, under any fault schedule, leaves a world related to the one it
    started in. *)
Definition preserves {A} (R : world -> world -> Prop) (c : M A) : Prop :=
  forall w r w', c w = (r, w') -> R w w'.

(** Both tables and the record of committed writes are what they were. *)
Definition read_only (w w' : world) : Prop :=
  tbl_accounts w' = tbl_accounts w /\
  seq_accounts w' = seq_accounts w /\
  tbl_transactions w' = tbl_transactions w /\
  seq_transactions w' = seq_transactions w /\
  trace w' = trace w.

(** The ledger only grows: the old records, unchanged and in place, then the
    new ones. *)
Definition ledger_extends (w w' : world) : Prop :=
  exists appended, tbl_transactions w' = tbl_transactions w ++ appended.

(** Row [r'] is row [r] up to its two balances, and is [r] itself unless [r]
    is the row of [username]. *)
Definition same_but_balances (username : string) (r r' : account) : Prop :=
  acc_id r' = acc_id r /\
  acc_username r' = acc_username r /\
  acc_display_name r' = acc_display_name r /\
  acc_password_hash r' = acc_password_hash r /\
  (Sqlite.matches username r = false -> r' = r).

(** The accounts table has the same rows in the same order, changed at most
    in the balances of [username]. *)
Definition only_balances_of (username : string) (w w' : world) : Prop :=
  Forall2 (same_but_balances username) (tbl_accounts w) (tbl_accounts w').

(** A text for a text column, a number for a balance column. *)
Definition fits (column : string) (v : value) : Prop :=
  ((column = "display_name" \/ column = "password_hash") /\ exists s, v = VText s) \/
  ((column = "current_balance" \/ column = "savings_balance") /\ exists x, v = VReal x).

(** [add_current_balance] or [add_savings_balance], by selector, and the
    column it reads and writes. *)
Definition add_balance {P : Platform} (selector : string) : string -> float -> M unit :=
  if String.eqb selector "current"
  then UsersDB.add_current_balance
  else UsersDB.add_savings_balance.

Definition balance_column (selector : string) : string * Sqlite.column :=
  if String.eqb selector "current"
  then ("current_balance", Sqlite.Ccurrent_balance)
  else ("savings_balance", Sqlite.Csavings_balance).

(** No username has two account rows. *)
Definition unique_usernames (w : world) : Prop :=
  forall username,
    (length (filter (Sqlite.matches username) (tbl_accounts w)) <= 1)%nat.

(** A relation between worlds admits the update of a column, the append of a
    ledger record, the insert of an account. *)
Definition admits_update (R : world -> world -> Prop) (name username : string) : Prop :=
  forall c v w w',
    Sqlite.resolve name = Some c ->
    tbl_accounts w' = Sqlite.updated_rows c username v (tbl_accounts w) ->
    tbl_transactions w' = tbl_transactions w ->
    R w w'.

Definition admits_append (R : world -> world -> Prop) : Prop :=
  forall row w w',
    tbl_accounts w' = tbl_accounts w ->
    tbl_transactions w' = tbl_transactions w ++ [row] ->
    R w w'.

Definition admits_insert (R : world -> world -> Prop) : Prop :=
  forall row w w',
    tbl_accounts w' = tbl_accounts w ++ [row] ->
    tbl_transactions w' = tbl_transactions w ->
    R w w'.

(** ** Sample data *)

Definition decimal (n : Z) : string := NilZero.string_of_int (Z.to_int n).

(** A platform for the examples.  It knows no numeric text ([float] rejects
    every string and SQLite converts none) and writes integers, and reals by
    their integer part, in decimal. *)
Definition sample_platform : Platform :=
  {| hash_bcrypt := fun plaintext => String.append "$2b$12$" plaintext;
     float_of_str := fun _ => Raise (ValueError "could not convert string to float");
     numeric_of_text := fun _ => None;
     text_of_number := fun v =>
       match v with
       | VInt n => decimal n
       | VReal x =>
           match truncate x with
           | Some n => String.append (decimal n) ".0"
           | None => "Inf"
           end
       | _ => ""
       end |}.

Definition alice : account :=
  mkAccount 1 (VText "alice") (VText "Alice") (VText "$2b$12$secret")
            (VReal 100) (VReal 50).

(** [alice] with current = 100.00 and savings = 50.00, an empty ledger, noon of
    1970-01-11. *)
Definition bank : world :=
  mkWorld [alice] 1 [] 0 907200 [] [] [].

(** A ledger with one record of 1970-01-04 03:00:00: seven days and nine hours
    before the clock of [bank]. *)
Definition stale_record : transaction :=
  mkTransaction 1 "alice" "deposit" 25 "current" 270000.

Definition stale_bank : world :=
  mkWorld [alice] 1 [stale_record] 1 907200 [] [] [].

(** The same ledger behind a store that fails the next statement. *)
Definition broken_bank : world :=
  mkWorld [alice] 1 [stale_record] 1 907200 [true] [] [].

(** The bank of [alice] behind a store with the given fault schedule. *)
Definition faulty_bank (schedule : list bool) : world :=
  mkWorld [alice] 1 [] 0 907200 schedule [] [].

(** An [int] that rejects every string. *)
Definition sample_int_of_str (s : string) : result Z :=
  Raise (ValueError "invalid literal for int() with base 10").

(** An account whose current balance, 10^16, is so large that the floats next
    to it are 2 apart. *)
Definition whale : account :=
  mkAccount 1 (VText "alice") (VText "Alice") (VText "$2b$12$secret")
            (VReal 10000000000000000) (VReal 50).

Definition whale_bank : world :=
  mkWorld [whale] 1 [] 0 907200 [] [] [].

(** The world a call leaves, and the passing of time between two calls. *)
Definition run {A} (c : M A) (w : world) : world := snd (c w).

Definition tick (seconds : Z) (w : world) : world :=
  mkWorld (tbl_accounts w) (seq_accounts w) (tbl_transactions w)
          (seq_transactions w) (clock w + seconds) (faults w) (trace w) (log w).

(** The scenario of the specification: a deposit of 25.00 into current, a
    minute later a withdrawal of 200.00 from current, a minute later a transfer
    of 10.00 out of savings. *)
Definition scenario : world :=
  let P := sample_platform in
  let w1 := run (Actions.deposit_into_account "alice" 25 "current") bank in
  let w2 := run (Actions.withdraw_from_account "alice" 200 "current") (tick 60 w1) in
  run (Actions.transfer_between_accounts "alice" 10 "savings") (tick 60 w2).

(** * Properties *)

(** ** Running computations *)

Lemma bind_ok {A B} (c : M A) (k : A -> M B) (w w' : world) (a : A) :
  c w = (Ok a, w') -> bind c k w = k a w'.
Proof. intros H. unfold bind. rewrite H. reflexivity. Qed.

Lemma bind_raise {A B} (c : M A) (k : A -> M B) (w w' : world) (e : exn) :
  c w = (Raise e, w') -> bind c k w = (Raise e, w').
Proof. intros H. unfold bind. rewrite H. reflexivity. Qed.

(** One statement of a method body that returns: continue with the rest. *)
Ltac step tac := erewrite bind_ok by tac; cbv beta.

Lemma contains_In (x : string) (l : list string) :
  contains x l = true <-> In x l.
Proof.
  unfold contains. rewrite existsb_exists. split.
  - intros [y [Hy Heq]]. apply String.eqb_eq in Heq. subst. exact Hy.
  - intros H. exists x. split; [exact H | apply String.eqb_refl].
Qed.

Lemma contains_not_In (x : string) (l : list string) :
  contains x l = false <-> ~ In x l.
Proof.
  rewrite <- contains_In. destruct (contains x l); split; intros H;
    try reflexivity; try discriminate; try (intros H'; discriminate).
  exfalso. apply H. reflexivity.
Qed.

Lemma valid_selector_contains (selector : string) :
  valid_selector selector <-> contains selector ["current"; "savings"] = true.
Proof.
  rewrite contains_In. unfold valid_selector. simpl. split.
  - intros [H | H]; subst; auto.
  - intros [H | [H | []]]; subst; auto.
Qed.

(** A float above zero is not at or below it, and is a number. *)
Lemma positive (value : float) :
  (0 <? value)%float = true -> (value <=? 0)%float = false.
Proof.
  rewrite ltb_spec, leb_spec.
  change (Prim2SF 0) with (S754_zero false).
  unfold SFltb, SFleb.
  destruct (Prim2SF value) as [s | s | | s m e]; cbn;
    try destruct s; cbn; congruence.
Qed.

Lemma positive_not_nan (value : float) :
  (0 <? value)%float = true -> is_nan value = false.
Proof.
  unfold is_nan. rewrite ltb_spec, FloatAxioms.eqb_spec.
  change (Prim2SF 0) with (S754_zero false).
  unfold SFltb, SFeqb.
  destruct (Prim2SF value) as [s | s | | s m e]; cbn;
    try destruct s; cbn; try congruence;
    intros _; rewrite ?Z.compare_refl, ?Pos.compare_refl; cbn;
    rewrite ?Z.compare_refl, ?Pos.compare_refl; reflexivity.
Qed.

Lemma affinity_stored_current (x : float) {P : Platform} :
  Sqlite.affinity Sqlite.Ccurrent_balance (if is_nan x then VNull else VReal x)
  = Sqlite.stored x.
Proof. unfold Sqlite.stored. destruct (is_nan x); reflexivity. Qed.

Lemma affinity_stored_savings (x : float) {P : Platform} :
  Sqlite.affinity Sqlite.Csavings_balance (if is_nan x then VNull else VReal x)
  = Sqlite.stored x.
Proof. unfold Sqlite.stored. destruct (is_nan x); reflexivity. Qed.

Lemma real_positive (value : float) :
  (0 <? value)%float = true -> Sqlite.real value = value.
Proof.
  unfold Sqlite.real, is_zero. rewrite ltb_spec, FloatAxioms.eqb_spec.
  change (Prim2SF 0) with (S754_zero false).
  unfold SFltb, SFeqb.
  destruct (Prim2SF value) as [s | s | | s m e]; cbn;
    try destruct s; cbn; congruence.
Qed.

Section Validation.
Context {P : Platform}.

(** ** Rejected calls: amounts and selectors *)

(** C5. An amount that is zero or negative makes deposit, withdraw and transfer
    raise their "amount must be positive" [ValueError] (InvalidAmount),
    whatever the selector, and the world stays as it was: every balance is
    unchanged and no ledger record is created. *)
Theorem invalid_amount_rejected :
  forall (username selector : string) (amount : float) (w : world),
    (amount <=? 0)%float = true ->
    Actions.deposit_into_account username amount selector w
      = (Raise (ValueError "Deposit amount must be positive"), w) /\
    Actions.withdraw_from_account username amount selector w
      = (Raise (ValueError "Withdrawal amount must be positive"), w) /\
    Actions.transfer_between_accounts username amount selector w
      = (Raise (ValueError "Transfer amount must be positive"), w) /\
    InvalidAmount (ValueError "Deposit amount must be positive") /\
    InvalidAmount (ValueError "Withdrawal amount must be positive") /\
    InvalidAmount (ValueError "Transfer amount must be positive").
Proof.
  intros username selector amount w Hle.
  unfold Actions.deposit_into_account, Actions.withdraw_from_account,
    Actions.transfer_between_accounts, InvalidAmount.
  rewrite Hle. unfold raise. intuition.
Qed.

(** C6. A positive amount with a selector other than "current" and "savings"
    makes deposit, withdraw and transfer raise their "must be 'current' or
    'savings'" [ValueError] (InvalidAccountSelector), and the world stays as it
    was: no balance changes and no ledger record is appended. *)
Theorem invalid_selector_rejected :
  forall (username selector : string) (amount : float) (w : world),
    (0 <? amount)%float = true ->
    ~ valid_selector selector ->
    Actions.deposit_into_account username amount selector w
      = (Raise (ValueError "target_account must be 'current' or 'savings'"), w) /\
    Actions.withdraw_from_account username amount selector w
      = (Raise (ValueError "target_account must be 'current' or 'savings'"), w) /\
    Actions.transfer_between_accounts username amount selector w
      = (Raise (ValueError "source_account must be 'current' or 'savings'"), w) /\
    InvalidAccountSelector
      (ValueError "target_account must be 'current' or 'savings'") /\
    InvalidAccountSelector
      (ValueError "source_account must be 'current' or 'savings'").
Proof.
  intros username selector amount w Hpos Hsel.
  apply positive in Hpos.
  assert (Hc : contains selector ["current"; "savings"] = false).
  { destruct (contains selector ["current"; "savings"]) eqn:E; [| reflexivity].
    exfalso. apply Hsel. apply valid_selector_contains. exact E. }
  unfold Actions.deposit_into_account, Actions.withdraw_from_account,
    Actions.transfer_between_accounts, InvalidAccountSelector.
  rewrite Hpos, Hc. unfold raise. simpl. intuition.
Qed.

End Validation.

(** ** Column access *)

Section ColumnAccess.
Context {P : Platform}.

Lemma allowed_resolves (column : string) :
  In column UsersDB.ALLOWED_COLUMNS ->
  contains column UsersDB.ALLOWED_COLUMNS = true /\
  exists c, Sqlite.resolve column = Some c.
Proof.
  intros H. split; [apply contains_In; exact H |].
  simpl in H.
  repeat (destruct H as [H | H]; [subst; eexists; reflexivity |]).
  destruct H.
Qed.

(** A read of an allowed column returns: a fault of the store is logged and
    answered with [None]. *)
Lemma get_column_returns (column username : string) (w : world) :
  In column UsersDB.ALLOWED_COLUMNS ->
  exists data w', UsersDB.get_column_from_username column username w = (Ok data, w').
Proof.
  intros H. destruct (allowed_resolves column H) as [Hc [c Hr]].
  unfold UsersDB.get_column_from_username. rewrite Hc. cbn [negb].
  unfold try_except_OperationalError, Sqlite.select_account, bind, Sqlite.execute.
  rewrite Hr.
  unfold gets, ret, raise, logger, modify.
  destruct (faults w) as [| [|] rest]; cbn;
    try destruct (find (Sqlite.matches username) (tbl_accounts w)); cbn; eauto.
Qed.

Lemma bind_raises (v : value) (e : exn) :
  Sqlite.bind v = Raise e -> e = OverflowError.
Proof.
  destruct v as [| n | x | t]; cbn; try discriminate.
  destruct (Sqlite.int64 n); [discriminate |]. intros H. inversion H. reflexivity.
Qed.

(** A write to an allowed column returns, or fails on a value SQLite cannot
    take or on a constraint of the schema. *)
Lemma set_column_raises_no_ValueError
    (column username : string) (new_data : value) (w w' : world) (e : exn) :
  In column UsersDB.ALLOWED_COLUMNS ->
  UsersDB.set_column_from_username column username new_data w = (Raise e, w') ->
  e = IntegrityError \/ e = OverflowError.
Proof.
  intros H. destruct (allowed_resolves column H) as [Hc [c Hr]].
  unfold UsersDB.set_column_from_username. rewrite Hc. cbn [negb].
  unfold try_except_OperationalError, Sqlite.update_account, bind, lift,
    Sqlite.execute.
  rewrite Hr.
  unfold gets, ret, raise, logger, modify, Sqlite.commit, bind.
  destruct (Sqlite.bind new_data) as [bound | e0] eqn:Eb.
  - destruct (faults w) as [| [|] rest]; cbn;
      try (destruct (existsb (Sqlite.matches username) (tbl_accounts w)); cbn;
           [destruct (negb (Sqlite.admissible c (Sqlite.affinity c bound))
                      || Sqlite.conflicts c username (Sqlite.affinity c bound)
                                          (tbl_accounts w)); cbn |]);
      intros E; inversion E; left; reflexivity.
  - rewrite (bind_raises _ _ Eb). intros E. inversion E. right. reflexivity.
Qed.

Lemma IntegrityError_not_InvalidColumn : ~ InvalidColumn IntegrityError.
Proof. intros [c Hc]. discriminate. Qed.

Lemma OverflowError_not_InvalidColumn : ~ InvalidColumn OverflowError.
Proof. intros [c Hc]. discriminate. Qed.

(** C8. For a column outside the allow-list, [get_column_from_username] and
    [set_column_from_username] raise the "Disallowed column" [ValueError]
    (InvalidColumn) and leave the world as it was: no statement reaches the
    store.  For a column of the allow-list neither raises that error. *)
Theorem column_allow_list :
  forall (column username : string) (new_data : value) (w : world),
    (~ In column UsersDB.ALLOWED_COLUMNS ->
       UsersDB.get_column_from_username column username w
         = (Raise (ValueError (String.append "Disallowed column: " column)), w) /\
       UsersDB.set_column_from_username column username new_data w
         = (Raise (ValueError (String.append "Disallowed column: " column)), w) /\
       InvalidColumn (ValueError (String.append "Disallowed column: " column)))
    /\
    (In column UsersDB.ALLOWED_COLUMNS ->
       (forall e w',
           UsersDB.get_column_from_username column username w = (Raise e, w') ->
           ~ InvalidColumn e) /\
       (forall e w',
           UsersDB.set_column_from_username column username new_data w = (Raise e, w') ->
           ~ InvalidColumn e)).
Proof.
  intros column username new_data w. split.
  - intros H. apply contains_not_In in H.
    unfold UsersDB.get_column_from_username, UsersDB.set_column_from_username.
    rewrite H. simpl. unfold raise. repeat split. exists column. reflexivity.
  - intros H. split.
    + intros e w' E.
      destruct (get_column_returns column username w H) as [data [w'' E']].
      rewrite E' in E. discriminate.
    + intros e w' E.
      apply set_column_raises_no_ValueError in E; [| exact H].
      destruct E; subst;
        [exact IntegrityError_not_InvalidColumn
        | exact OverflowError_not_InvalidColumn].
Qed.

End ColumnAccess.

(** ** The store on the happy path *)

Lemma execute_healthy (w : world) :
  healthy w -> Sqlite.execute w = (Ok tt, w).
Proof. unfold healthy, Sqlite.execute. intros H. rewrite H. reflexivity. Qed.

Lemma find_existsb {A} (f : A -> bool) (l : list A) (a : A) :
  find f l = Some a -> existsb f l = true.
Proof.
  intros H. apply existsb_exists. exists a.
  apply find_some in H. exact H.
Qed.

Lemma find_updated_rows (c : Sqlite.column) (username : string) (v : value)
    (tbl : list account) :
  (forall r, acc_username (Sqlite.store c v r) = acc_username r) ->
  find (Sqlite.matches username) (Sqlite.updated_rows c username v tbl)
  = option_map (Sqlite.store c v) (find (Sqlite.matches username) tbl).
Proof.
  intros Hname. unfold Sqlite.updated_rows.
  induction tbl as [| r tbl IH]; [reflexivity |].
  cbn [map find].
  destruct (Sqlite.matches username r) eqn:E.
  - assert (E' : Sqlite.matches username (Sqlite.store c v r) = true).
    { unfold Sqlite.matches in *. rewrite Hname. exact E. }
    rewrite E'. reflexivity.
  - rewrite E. exact IH.
Qed.

Lemma account_of_after_update (name : string) (c : Sqlite.column)
    (username : string) (v : value) (w : world) :
  (forall r, acc_username (Sqlite.store c v r) = acc_username r) ->
  account_of username (after_update name c username v w)
  = option_map (Sqlite.store c v) (account_of username w).
Proof. intros H. unfold account_of. cbn. apply find_updated_rows. exact H. Qed.

Lemma current_after_update_current (username : string) (v : value) (w : world) :
  account_of username w <> None ->
  balance_of "current" username
             (after_update "current_balance" Sqlite.Ccurrent_balance username v w)
  = Some v.
Proof.
  intros H. unfold balance_of.
  rewrite account_of_after_update by reflexivity.
  destruct (account_of username w); [reflexivity | contradiction].
Qed.

Lemma savings_after_update_current (username : string) (v : value) (w : world) :
  balance_of "savings" username
             (after_update "current_balance" Sqlite.Ccurrent_balance username v w)
  = balance_of "savings" username w.
Proof.
  unfold balance_of. rewrite account_of_after_update by reflexivity.
  destruct (account_of username w); reflexivity.
Qed.

Lemma savings_after_update_savings (username : string) (v : value) (w : world) :
  account_of username w <> None ->
  balance_of "savings" username
             (after_update "savings_balance" Sqlite.Csavings_balance username v w)
  = Some v.
Proof.
  intros H. unfold balance_of.
  rewrite account_of_after_update by reflexivity.
  destruct (account_of username w); [reflexivity | contradiction].
Qed.

Lemma current_after_update_savings (username : string) (v : value) (w : world) :
  balance_of "current" username
             (after_update "savings_balance" Sqlite.Csavings_balance username v w)
  = balance_of "current" username w.
Proof.
  unfold balance_of. rewrite account_of_after_update by reflexivity.
  destruct (account_of username w); reflexivity.
Qed.

Lemma balance_account (selector username : string) (w : world) (v : value) :
  balance_of selector username w = Some v -> account_of username w <> None.
Proof.
  unfold balance_of. destruct (account_of username w); [discriminate |].
  intros H. discriminate.
Qed.

Section HappyPath.
Context {P : Platform}.

Lemma get_current_balance_cell (username : string) (w : world) (v : value) :
  healthy w ->
  balance_of "current" username w = Some v ->
  UsersDB.get_current_balance username w = (py_float v, w).
Proof.
  intros Hh Hb. unfold balance_of, account_of in Hb.
  unfold UsersDB.get_current_balance, UsersDB.get_column_from_username.
  cbn [contains UsersDB.ALLOWED_COLUMNS existsb String.eqb Ascii.eqb Bool.eqb
       orb andb negb].
  unfold try_except_OperationalError, Sqlite.select_account, bind.
  rewrite (execute_healthy w Hh). cbn.
  destruct (find (Sqlite.matches username) (tbl_accounts w)) as [r |];
    [| discriminate].
  cbn in *. injection Hb as Hb. rewrite Hb. reflexivity.
Qed.

Lemma get_savings_balance_cell (username : string) (w : world) (v : value) :
  healthy w ->
  balance_of "savings" username w = Some v ->
  UsersDB.get_savings_balance username w = (py_float v, w).
Proof.
  intros Hh Hb. unfold balance_of, account_of in Hb.
  unfold UsersDB.get_savings_balance, UsersDB.get_column_from_username.
  cbn [contains UsersDB.ALLOWED_COLUMNS existsb String.eqb Ascii.eqb Bool.eqb
       orb andb negb].
  unfold try_except_OperationalError, Sqlite.select_account, bind.
  rewrite (execute_healthy w Hh). cbn.
  destruct (find (Sqlite.matches username) (tbl_accounts w)) as [r |];
    [| discriminate].
  cbn in *. injection Hb as Hb. rewrite Hb. reflexivity.
Qed.

Lemma get_current_balance_run (username : string) (w : world) (old : float) :
  healthy w ->
  balance_of "current" username w = Some (VReal old) ->
  UsersDB.get_current_balance username w = (Ok old, w).
Proof. apply get_current_balance_cell. Qed.

Lemma get_savings_balance_run (username : string) (w : world) (old : float) :
  healthy w ->
  balance_of "savings" username w = Some (VReal old) ->
  UsersDB.get_savings_balance username w = (Ok old, w).
Proof. apply get_savings_balance_cell. Qed.

Lemma set_current_balance_run (username : string) (x : float) (w : world) :
  healthy w ->
  account_of username w <> None ->
  UsersDB.set_column_from_username "current_balance" username (VReal x) w
  = (Ok tt, after_update "current_balance" Sqlite.Ccurrent_balance username
                         (Sqlite.stored x) w).
Proof.
  intros Hh Ha. unfold account_of in Ha.
  destruct (find (Sqlite.matches username) (tbl_accounts w)) as [r |] eqn:E;
    [| contradiction].
  apply find_existsb in E.
  unfold UsersDB.set_column_from_username.
  cbn [contains UsersDB.ALLOWED_COLUMNS existsb String.eqb Ascii.eqb Bool.eqb
       orb andb negb].
  unfold try_except_OperationalError, Sqlite.update_account, bind, lift.
  cbn [Sqlite.resolve String.eqb Ascii.eqb Bool.eqb Sqlite.bind].
  rewrite (execute_healthy w Hh). unfold gets. rewrite E.
  rewrite affinity_stored_current.
  unfold Sqlite.stored. destruct (is_nan x); reflexivity.
Qed.

Lemma set_savings_balance_run (username : string) (x : float) (w : world) :
  healthy w ->
  account_of username w <> None ->
  UsersDB.set_column_from_username "savings_balance" username (VReal x) w
  = (Ok tt, after_update "savings_balance" Sqlite.Csavings_balance username
                         (Sqlite.stored x) w).
Proof.
  intros Hh Ha. unfold account_of in Ha.
  destruct (find (Sqlite.matches username) (tbl_accounts w)) as [r |] eqn:E;
    [| contradiction].
  apply find_existsb in E.
  unfold UsersDB.set_column_from_username.
  cbn [contains UsersDB.ALLOWED_COLUMNS existsb String.eqb Ascii.eqb Bool.eqb
       orb andb negb].
  unfold try_except_OperationalError, Sqlite.update_account, bind, lift.
  cbn [Sqlite.resolve String.eqb Ascii.eqb Bool.eqb Sqlite.bind].
  rewrite (execute_healthy w Hh). unfold gets. rewrite E.
  rewrite affinity_stored_savings.
  unfold Sqlite.stored. destruct (is_nan x); reflexivity.
Qed.

(** [add_current_balance] reads the balance, adds, and writes the sum back. *)
Lemma add_current_balance_run (username : string) (delta : float) (w : world) (old : float) :
  healthy w ->
  balance_of "current" username w = Some (VReal old) ->
  UsersDB.add_current_balance username delta w
  = (Ok tt, after_update "current_balance" Sqlite.Ccurrent_balance username
                         (Sqlite.stored (old + delta)) w).
Proof.
  intros Hh Hb. unfold UsersDB.add_current_balance.
  rewrite (bind_ok _ _ _ _ _ (get_current_balance_run username w old Hh Hb)).
  apply set_current_balance_run; [exact Hh | exact (balance_account _ _ _ _ Hb)].
Qed.

Lemma add_savings_balance_run (username : string) (delta : float) (w : world) (old : float) :
  healthy w ->
  balance_of "savings" username w = Some (VReal old) ->
  UsersDB.add_savings_balance username delta w
  = (Ok tt, after_update "savings_balance" Sqlite.Csavings_balance username
                         (Sqlite.stored (old + delta)) w).
Proof.
  intros Hh Hb. unfold UsersDB.add_savings_balance.
  rewrite (bind_ok _ _ _ _ _ (get_savings_balance_run username w old Hh Hb)).
  apply set_savings_balance_run; [exact Hh | exact (balance_account _ _ _ _ Hb)].
Qed.

End HappyPath.

Lemma log_transaction_run (username kind : string) (amount : float) (label : string)
    (w : world) :
  is_nan amount = false ->
  healthy w ->
  TransactionsDB.log_transaction username kind amount label w
  = (Ok tt, after_append username kind (Sqlite.real amount) label w).
Proof.
  intros Hn Hh. unfold TransactionsDB.log_transaction, try_except_OperationalError,
    Sqlite.insert_transaction, bind.
  rewrite (execute_healthy w Hh), Hn. reflexivity.
Qed.

Lemma log_positive_run (username kind : string) (amount : float) (label : string)
    (w : world) :
  (0 <? amount)%float = true ->
  healthy w ->
  TransactionsDB.log_transaction username kind amount label w
  = (Ok tt, after_append username kind amount label w).
Proof.
  intros Hpos Hh.
  rewrite (log_transaction_run username kind amount label w
             (positive_not_nan amount Hpos) Hh).
  rewrite (real_positive amount Hpos). reflexivity.
Qed.

(** A NaN is bound as NULL, which the NOT NULL [amount] column refuses; the
    method does not catch [sqlite3.IntegrityError]. *)
Lemma log_transaction_nan (username kind : string) (amount : float) (label : string)
    (w : world) :
  is_nan amount = true ->
  healthy w ->
  TransactionsDB.log_transaction username kind amount label w
  = (Raise IntegrityError, w).
Proof.
  intros Hn Hh. unfold TransactionsDB.log_transaction, try_except_OperationalError,
    Sqlite.insert_transaction, bind.
  rewrite (execute_healthy w Hh), Hn. reflexivity.
Qed.

(** ** Deposits, withdrawals and transfers *)

Section MoneyMovement.
Context {P : Platform}.

Lemma deposit_current_run (username : string) (amount : float) (w : world) (cur : float) :
  (0 <? amount)%float = true -> healthy w ->
  balance_of "current" username w = Some (VReal cur) ->
  Actions.deposit_into_account username amount "current" w
  = (Ok tt,
     after_log INFO
       (after_append username "deposit" amount "current"
          (after_update "current_balance" Sqlite.Ccurrent_balance username
                        (Sqlite.stored (cur + amount)) w))).
Proof.
  intros Hpos Hh Hb. unfold Actions.deposit_into_account.
  rewrite (positive amount Hpos). cbn [contains existsb String.eqb Ascii.eqb
    Bool.eqb orb andb negb].
  step ltac:(apply add_current_balance_run; [exact Hh | exact Hb]).
  step ltac:(apply log_positive_run; [exact Hpos | exact Hh]).
  reflexivity.
Qed.

Lemma deposit_savings_run (username : string) (amount : float) (w : world) (sav : float) :
  (0 <? amount)%float = true -> healthy w ->
  balance_of "savings" username w = Some (VReal sav) ->
  Actions.deposit_into_account username amount "savings" w
  = (Ok tt,
     after_log INFO
       (after_append username "deposit" amount "savings"
          (after_update "savings_balance" Sqlite.Csavings_balance username
                        (Sqlite.stored (sav + amount)) w))).
Proof.
  intros Hpos Hh Hb. unfold Actions.deposit_into_account.
  rewrite (positive amount Hpos). cbn [contains existsb String.eqb Ascii.eqb
    Bool.eqb orb andb negb].
  step ltac:(apply add_savings_balance_run; [exact Hh | exact Hb]).
  step ltac:(apply log_positive_run; [exact Hpos | exact Hh]).
  reflexivity.
Qed.

Lemma withdraw_current_run (username : string) (amount : float) (w : world) (cur : float) :
  (0 <? amount)%float = true -> healthy w ->
  balance_of "current" username w = Some (VReal cur) ->
  Actions.withdraw_from_account username amount "current" w
  = (Ok tt,
     after_log INFO
       (after_append username "withdraw" amount "current"
          (after_update "current_balance" Sqlite.Ccurrent_balance username
                        (Sqlite.stored (cur + - amount)) w))).
Proof.
  intros Hpos Hh Hb. unfold Actions.withdraw_from_account.
  rewrite (positive amount Hpos). cbn [contains existsb String.eqb Ascii.eqb
    Bool.eqb orb andb negb].
  step ltac:(apply add_current_balance_run; [exact Hh | exact Hb]).
  step ltac:(apply log_positive_run; [exact Hpos | exact Hh]).
  reflexivity.
Qed.

Lemma withdraw_savings_run (username : string) (amount : float) (w : world) (sav : float) :
  (0 <? amount)%float = true -> healthy w ->
  balance_of "savings" username w = Some (VReal sav) ->
  Actions.withdraw_from_account username amount "savings" w
  = (Ok tt,
     after_log INFO
       (after_append username "withdraw" amount "savings"
          (after_update "savings_balance" Sqlite.Csavings_balance username
                        (Sqlite.stored (sav + - amount)) w))).
Proof.
  intros Hpos Hh Hb. unfold Actions.withdraw_from_account.
  rewrite (positive amount Hpos). cbn [contains existsb String.eqb Ascii.eqb
    Bool.eqb orb andb negb].
  step ltac:(apply add_savings_balance_run; [exact Hh | exact Hb]).
  step ltac:(apply log_positive_run; [exact Hpos | exact Hh]).
  reflexivity.
Qed.

Lemma transfer_current_run (username : string) (amount : float) (w : world) (cur sav : float) :
  (0 <? amount)%float = true -> healthy w ->
  balance_of "current" username w = Some (VReal cur) ->
  balance_of "savings" username w = Some (VReal sav) ->
  Actions.transfer_between_accounts username amount "current" w
  = (Ok tt,
     after_log INFO
       (after_append username "transfer" amount "current_to_savings"
          (after_update "savings_balance" Sqlite.Csavings_balance username
                        (Sqlite.stored (sav + amount))
             (after_update "current_balance" Sqlite.Ccurrent_balance username
                           (Sqlite.stored (cur + - amount)) w)))).
Proof.
  intros Hpos Hh Hc Hs. unfold Actions.transfer_between_accounts.
  rewrite (positive amount Hpos). cbn [contains existsb String.eqb Ascii.eqb
    Bool.eqb orb andb negb].
  step ltac:(apply add_current_balance_run; [exact Hh | exact Hc]).
  rewrite <- (savings_after_update_current username (Sqlite.stored (cur + - amount)) w) in Hs.
  step ltac:(apply add_savings_balance_run; [exact Hh | exact Hs]).
  step ltac:(apply log_positive_run; [exact Hpos | exact Hh]).
  reflexivity.
Qed.

Lemma transfer_savings_run (username : string) (amount : float) (w : world) (cur sav : float) :
  (0 <? amount)%float = true -> healthy w ->
  balance_of "current" username w = Some (VReal cur) ->
  balance_of "savings" username w = Some (VReal sav) ->
  Actions.transfer_between_accounts username amount "savings" w
  = (Ok tt,
     after_log INFO
       (after_append username "transfer" amount "savings_to_current"
          (after_update "savings_balance" Sqlite.Csavings_balance username
                        (Sqlite.stored (sav + - amount))
             (after_update "current_balance" Sqlite.Ccurrent_balance username
                           (Sqlite.stored (cur + amount)) w)))).
Proof.
  intros Hpos Hh Hc Hs. unfold Actions.transfer_between_accounts.
  rewrite (positive amount Hpos). cbn [contains existsb String.eqb Ascii.eqb
    Bool.eqb orb andb negb].
  step ltac:(apply add_current_balance_run; [exact Hh | exact Hc]).
  rewrite <- (savings_after_update_current username (Sqlite.stored (cur + amount)) w) in Hs.
  step ltac:(apply add_savings_balance_run; [exact Hh | exact Hs]).
  step ltac:(apply log_positive_run; [exact Hpos | exact Hh]).
  reflexivity.
Qed.

(** C1, amended.  On a healthy store, for every amount > 0, every target among
    "current" and "savings" and every user whose target balance is a number,
    deposit returns and the target balance is what SQLite stores for the
    binary64 sum [old + amount]: the float nearest to the exact sum, an
    infinity when the sum overflows, NULL when it is NaN.  The other balance
    is what it was, and the ledger is the old ledger followed by one record:
    kind "deposit", the amount, the target as its account label. *)
Theorem deposit_increases_balance :
  forall (username target : string) (amount old : float) (w : world),
    (0 <? amount)%float = true ->
    valid_selector target ->
    healthy w ->
    balance_of target username w = Some (VReal old) ->
    exists w',
      Actions.deposit_into_account username amount target w = (Ok tt, w') /\
      balance_of target username w' = Some (Sqlite.stored (old + amount)) /\
      balance_of (other target) username w' = balance_of (other target) username w /\
      tbl_transactions w'
      = tbl_transactions w
        ++ [mkTransaction (next_transaction_id w) username "deposit" amount
                          target (clock w)].
Proof.
  intros username target amount old w Hpos [Ht | Ht] Hh Hb; subst target;
    eexists; (split; [| split; [| split]]).
  - apply (deposit_current_run username amount w old Hpos Hh Hb).
  - apply current_after_update_current. exact (balance_account _ _ _ _ Hb).
  - apply savings_after_update_current.
  - reflexivity.
  - apply (deposit_savings_run username amount w old Hpos Hh Hb).
  - apply savings_after_update_savings. exact (balance_account _ _ _ _ Hb).
  - apply current_after_update_savings.
  - reflexivity.
Qed.

(** C2, amended.  On a healthy store, for every amount > 0 and every source
    among "current" and "savings", withdraw returns and the source balance is
    what SQLite stores for the binary64 sum [old + (- amount)], whatever the
    old balance was: nothing compares the two, and no hypothesis of the theorem
    relates them.  The other balance is what it was, and the ledger gains one
    record of kind "withdraw" whose amount is the amount itself, not its
    negation. *)
Theorem withdraw_decreases_balance :
  forall (username source : string) (amount old : float) (w : world),
    (0 <? amount)%float = true ->
    valid_selector source ->
    healthy w ->
    balance_of source username w = Some (VReal old) ->
    exists w',
      Actions.withdraw_from_account username amount source w = (Ok tt, w') /\
      balance_of source username w' = Some (Sqlite.stored (old + - amount)) /\
      balance_of (other source) username w' = balance_of (other source) username w /\
      tbl_transactions w'
      = tbl_transactions w
        ++ [mkTransaction (next_transaction_id w) username "withdraw" amount
                          source (clock w)].
Proof.
  intros username source amount old w Hpos [Ht | Ht] Hh Hb; subst source;
    eexists; (split; [| split; [| split]]).
  - apply (withdraw_current_run username amount w old Hpos Hh Hb).
  - apply current_after_update_current. exact (balance_account _ _ _ _ Hb).
  - apply savings_after_update_current.
  - reflexivity.
  - apply (withdraw_savings_run username amount w old Hpos Hh Hb).
  - apply savings_after_update_savings. exact (balance_account _ _ _ _ Hb).
  - apply current_after_update_savings.
  - reflexivity.
Qed.

(** C3. On a healthy store, for every amount > 0 and every user with two
    numeric balances, a transfer out of "current" leaves the same accounts
    table, hence the same two balances, as a withdrawal from "current"
    followed by a deposit into "savings": what SQLite stores for the binary64
    sums [cur + (- amount)] and [sav + amount].  The transfer appends one
    ledger record, labelled "current_to_savings", where the two calls append
    two. *)
Theorem transfer_as_withdraw_then_deposit :
  forall (username : string) (amount cur sav : float) (w : world),
    (0 <? amount)%float = true ->
    healthy w ->
    balance_of "current" username w = Some (VReal cur) ->
    balance_of "savings" username w = Some (VReal sav) ->
    exists w1 w2 wt,
      Actions.withdraw_from_account username amount "current" w = (Ok tt, w1) /\
      Actions.deposit_into_account username amount "savings" w1 = (Ok tt, w2) /\
      Actions.transfer_between_accounts username amount "current" w = (Ok tt, wt) /\
      tbl_accounts wt = tbl_accounts w2 /\
      balance_of "current" username wt = balance_of "current" username w2 /\
      balance_of "savings" username wt = balance_of "savings" username w2 /\
      balance_of "current" username wt = Some (Sqlite.stored (cur + - amount)) /\
      balance_of "savings" username wt = Some (Sqlite.stored (sav + amount)) /\
      tbl_transactions wt
      = tbl_transactions w
        ++ [mkTransaction (next_transaction_id w) username "transfer" amount
                          "current_to_savings" (clock w)] /\
      tbl_transactions w2
      = tbl_transactions w
        ++ [mkTransaction (next_transaction_id w) username "withdraw" amount
                          "current" (clock w);
            mkTransaction (next_transaction_id w1) username "deposit" amount
                          "savings" (clock w)].
Proof.
  intros username amount cur sav w Hpos Hh Hc Hs.
  pose proof (withdraw_current_run username amount w cur Hpos Hh Hc) as Hw.
  pose proof (transfer_current_run username amount w cur sav Hpos Hh Hc Hs) as Ht.
  assert (Hs1 : balance_of "savings" username
                  (after_log INFO
                     (after_append username "withdraw" amount "current"
                        (after_update "current_balance" Sqlite.Ccurrent_balance
                                      username (Sqlite.stored (cur + - amount)) w)))
                = Some (VReal sav)).
  { rewrite <- Hs. apply savings_after_update_current. }
  match type of Hs1 with
  | balance_of _ _ ?w1 = _ =>
      pose proof (deposit_savings_run username amount w1 sav Hpos Hh Hs1) as Hd
  end.
  eexists; eexists; eexists.
  split; [exact Hw |]. split; [exact Hd |]. split; [exact Ht |].
  split; [reflexivity |]. split; [reflexivity |]. split; [reflexivity |].
  split.
  { transitivity (balance_of "current" username
                    (after_update "current_balance" Sqlite.Ccurrent_balance
                                  username (Sqlite.stored (cur + - amount)) w)).
    - apply current_after_update_savings.
    - apply current_after_update_current. exact (balance_account _ _ _ _ Hc). }
  split.
  { apply savings_after_update_savings.
    rewrite <- (savings_after_update_current username (Sqlite.stored (cur + - amount)) w) in Hs.
    exact (balance_account _ _ _ _ Hs). }
  split; [reflexivity |].
  cbn. rewrite <- app_assoc. reflexivity.
Qed.

(** C4, amended.  On a healthy store, a transfer out of "savings" is the mirror
    image of the transfer out of "current": savings is what SQLite stores for
    the binary64 sum [sav + (- amount)], current what it stores for
    [cur + amount], and the ledger gains one record labelled
    "savings_to_current".  The statements the call commits are, in this order,
    the two balance updates and then the ledger append. *)
Theorem transfer_from_savings :
  forall (username : string) (amount cur sav : float) (w : world),
    (0 <? amount)%float = true ->
    healthy w ->
    balance_of "current" username w = Some (VReal cur) ->
    balance_of "savings" username w = Some (VReal sav) ->
    exists w',
      Actions.transfer_between_accounts username amount "savings" w = (Ok tt, w') /\
      balance_of "savings" username w' = Some (Sqlite.stored (sav + - amount)) /\
      balance_of "current" username w' = Some (Sqlite.stored (cur + amount)) /\
      tbl_transactions w'
      = tbl_transactions w
        ++ [mkTransaction (next_transaction_id w) username "transfer" amount
                          "savings_to_current" (clock w)] /\
      trace w'
      = trace w
        ++ [UpdatedAccount "current_balance" username (Sqlite.stored (cur + amount));
            UpdatedAccount "savings_balance" username (Sqlite.stored (sav + - amount));
            InsertedTransaction
              (mkTransaction (next_transaction_id w) username "transfer" amount
                             "savings_to_current" (clock w))].
Proof.
  intros username amount cur sav w Hpos Hh Hc Hs.
  eexists. split; [exact (transfer_savings_run username amount w cur sav Hpos Hh Hc Hs) |].
  split.
  { apply savings_after_update_savings.
    rewrite <- (savings_after_update_current username (Sqlite.stored (cur + amount)) w) in Hs.
    exact (balance_account _ _ _ _ Hs). }
  split.
  { transitivity (balance_of "current" username
                    (after_update "current_balance" Sqlite.Ccurrent_balance
                                  username (Sqlite.stored (cur + amount)) w)).
    - apply current_after_update_savings.
    - apply current_after_update_current. exact (balance_account _ _ _ _ Hc). }
  split; [reflexivity |].
  cbn. rewrite <- !app_assoc. reflexivity.
Qed.

End MoneyMovement.

(** ** Operations on a user without an account *)

Section MissingAccount.
Context {P : Platform}.

(** Without a row for the user the read of a balance raises [TypeError]:
    [float(None)], whether [None] stands for "no row" or for a store fault. *)
Lemma get_current_balance_missing (username : string) (w : world) :
  account_of username w = None ->
  exists w',
    UsersDB.get_current_balance username w = (Raise TypeError, w') /\
    nothing_written w w'.
Proof.
  unfold account_of. intros Hn.
  unfold UsersDB.get_current_balance, UsersDB.get_column_from_username.
  cbn [contains UsersDB.ALLOWED_COLUMNS existsb String.eqb Ascii.eqb Bool.eqb
       orb andb negb].
  unfold try_except_OperationalError, Sqlite.select_account, bind, Sqlite.execute,
    nothing_written.
  destruct (faults w) as [| [|] rest]; cbn; try rewrite Hn; cbn;
    eexists; (split; [reflexivity | repeat split]).
Qed.

Lemma get_savings_balance_missing (username : string) (w : world) :
  account_of username w = None ->
  exists w',
    UsersDB.get_savings_balance username w = (Raise TypeError, w') /\
    nothing_written w w'.
Proof.
  unfold account_of. intros Hn.
  unfold UsersDB.get_savings_balance, UsersDB.get_column_from_username.
  cbn [contains UsersDB.ALLOWED_COLUMNS existsb String.eqb Ascii.eqb Bool.eqb
       orb andb negb].
  unfold try_except_OperationalError, Sqlite.select_account, bind, Sqlite.execute,
    nothing_written.
  destruct (faults w) as [| [|] rest]; cbn; try rewrite Hn; cbn;
    eexists; (split; [reflexivity | repeat split]).
Qed.

Lemma read_balance_missing (selector username : string) (w : world) :
  account_of username w = None ->
  exists w',
    read_balance selector username w = (Raise TypeError, w') /\
    nothing_written w w'.
Proof.
  intros Hn. unfold read_balance. destruct (String.eqb selector "current").
  - apply get_current_balance_missing. exact Hn.
  - apply get_savings_balance_missing. exact Hn.
Qed.

(** C10. With a positive amount and a valid selector but no account record for
    the user, each of deposit, withdraw and transfer raises [TypeError], and
    the world it leaves is the one in which its first balance read failed
    (the selected balance for deposit and withdraw, the current balance for
    transfer): up to there no balance was written and no ledger record was
    appended. *)
Theorem missing_account_fails_at_balance_read :
  forall (username selector : string) (amount : float) (w : world),
    (0 <? amount)%float = true ->
    valid_selector selector ->
    account_of username w = None ->
    (exists w',
        read_balance selector username w = (Raise TypeError, w') /\
        Actions.deposit_into_account username amount selector w
          = (Raise TypeError, w') /\
        Actions.withdraw_from_account username amount selector w
          = (Raise TypeError, w') /\
        nothing_written w w') /\
    (exists w',
        UsersDB.get_current_balance username w = (Raise TypeError, w') /\
        Actions.transfer_between_accounts username amount selector w
          = (Raise TypeError, w') /\
        nothing_written w w').
Proof.
  intros username selector amount w Hpos Hsel Hn.
  pose proof (positive amount Hpos) as Hp.
  destruct (get_current_balance_missing username w Hn) as [wc [Hc Hwc]].
  destruct (get_savings_balance_missing username w Hn) as [ws [Hs Hws]].
  unfold read_balance, Actions.deposit_into_account, Actions.withdraw_from_account,
    Actions.transfer_between_accounts, UsersDB.add_current_balance,
    UsersDB.add_savings_balance.
  rewrite Hp.
  destruct Hsel as [Hsel | Hsel]; subst selector;
    cbn [contains existsb String.eqb Ascii.eqb Bool.eqb orb andb negb].
  - split; exists wc.
    + rewrite !(bind_raise _ _ _ _ _ (bind_raise _ _ _ _ _ Hc)). auto.
    + rewrite !(bind_raise _ _ _ _ _ (bind_raise _ _ _ _ _ Hc)). auto.
  - split; [exists ws | exists wc].
    + rewrite !(bind_raise _ _ _ _ _ (bind_raise _ _ _ _ _ Hs)). auto.
    + rewrite !(bind_raise _ _ _ _ _ (bind_raise _ _ _ _ _ Hc)). auto.
Qed.

End MissingAccount.

(** ** Registration *)

Section Registration.
Context {P : Platform}.

(** C7. When the store answers the INSERT, registering a username that already
    has an account raises [sqlite3.IntegrityError] (DuplicateUser): the
    uniqueness constraint on [username] fails.  The accounts table, and with it
    the existing record and both of its balances, is what it was. *)
Theorem duplicate_registration_rejected :
  forall (username display_name password : string)
         (current_balance savings_balance : float) (w : world),
    account_of username w <> None ->
    ~ unreachable w ->
    exists w',
      UsersDB.create_new_user username display_name password
                              current_balance savings_balance w
        = (Raise IntegrityError, w') /\
      DuplicateUser IntegrityError /\
      tbl_accounts w' = tbl_accounts w /\
      seq_accounts w' = seq_accounts w /\
      account_of username w' = account_of username w /\
      balance_of "current" username w' = balance_of "current" username w /\
      balance_of "savings" username w' = balance_of "savings" username w.
Proof.
  intros username display_name password current_balance savings_balance w Ha Hr.
  unfold account_of in Ha.
  destruct (find (Sqlite.matches username) (tbl_accounts w)) as [r |] eqn:E;
    [| contradiction].
  apply find_existsb in E.
  unfold UsersDB.create_new_user, try_except_OperationalError,
    Sqlite.insert_account, bind, Sqlite.execute, DuplicateUser.
  destruct (faults w) as [| [|] rest] eqn:F; cbn.
  - rewrite E. cbn. eexists. repeat split.
  - exfalso. apply Hr. exists rest. exact F.
  - rewrite E. cbn. eexists. repeat split.
Qed.

End Registration.

(** ** The seven-day query *)

Lemma insert_desc_perm (t : transaction) (l : list transaction) :
  Permutation (Sqlite.insert_desc t l) (t :: l).
Proof.
  induction l as [| u rest IH]; cbn [Sqlite.insert_desc].
  - apply Permutation_refl.
  - destruct (txn_timestamp u <=? txn_timestamp t).
    + apply Permutation_refl.
    + apply perm_trans with (u :: t :: rest).
      * apply perm_skip. exact IH.
      * apply perm_swap.
Qed.

Lemma insert_desc_sorted (t : transaction) (l : list transaction) :
  StronglySorted newest_first l ->
  StronglySorted newest_first (Sqlite.insert_desc t l).
Proof.
  induction l as [| u rest IH]; intros Hs; cbn [Sqlite.insert_desc].
  - constructor; constructor.
  - inversion Hs as [| ? ? Hrest Hall]; subst.
    destruct (txn_timestamp u <=? txn_timestamp t) eqn:E.
    + apply Z.leb_le in E. constructor; [exact Hs |].
      constructor; [exact E |].
      eapply Forall_impl; [| exact Hall].
      unfold newest_first. intros x Hx. lia.
    + apply Z.leb_gt in E. constructor; [apply IH; exact Hrest |].
      apply (Permutation_Forall (Permutation_sym (insert_desc_perm t rest))).
      constructor; [unfold newest_first; lia | exact Hall].
Qed.

Lemma order_by_timestamp_desc_perm (l : list transaction) :
  Permutation (Sqlite.order_by_timestamp_desc l) l.
Proof.
  induction l as [| t l IH]; cbn; [constructor |].
  apply perm_trans with (t :: Sqlite.order_by_timestamp_desc l).
  - apply insert_desc_perm.
  - apply perm_skip. exact IH.
Qed.

Lemma order_by_timestamp_desc_sorted (l : list transaction) :
  StronglySorted newest_first (Sqlite.order_by_timestamp_desc l).
Proof.
  induction l as [| t l IH]; cbn; [constructor |].
  apply insert_desc_sorted. exact IH.
Qed.

(** The bound of the query is the first second of the day seven days before
    the day of the clock. *)
Lemma date_now_minus_7_days_midnight (now : Z) :
  Sqlite.date_now_minus_7_days now = now - now mod 86400 - 7 * 86400.
Proof.
  unfold Sqlite.date_now_minus_7_days.
  pose proof (Z.div_mod now 86400 ltac:(lia)) as H. lia.
Qed.

Lemma selected_iff (username : string) (now : Z) (t : transaction) :
  Sqlite.selected username now t = true <->
  txn_username t = username /\ Sqlite.date_now_minus_7_days now <= txn_timestamp t.
Proof.
  unfold Sqlite.selected. rewrite andb_true_iff, String.eqb_eq, Z.leb_le.
  reflexivity.
Qed.

(** C9, as the code has it.  [get_transactions] never raises.  When the store
    answers, it returns exactly the records of the user whose timestamp is not
    before 00:00:00 UTC of the day seven days before today, newest first.  When
    the store is at fault it returns the empty list.  The ledger is not
    changed. *)
Theorem get_transactions_since_midnight :
  forall (username : string) (w : world),
    exists rows w',
      TransactionsDB.get_transactions username w = (Ok rows, w') /\
      tbl_transactions w' = tbl_transactions w /\
      (unreachable w -> rows = []) /\
      (~ unreachable w ->
         Permutation rows
           (filter (Sqlite.selected username (clock w)) (tbl_transactions w)) /\
         StronglySorted newest_first rows /\
         forall t,
           In t rows <->
           In t (tbl_transactions w) /\
           txn_username t = username /\
           clock w - clock w mod 86400 - 7 * 86400 <= txn_timestamp t).
Proof.
  intros username w.
  assert (Hgood :
    forall rows,
      rows = Sqlite.order_by_timestamp_desc
               (filter (Sqlite.selected username (clock w)) (tbl_transactions w)) ->
      Permutation rows
        (filter (Sqlite.selected username (clock w)) (tbl_transactions w)) /\
      StronglySorted newest_first rows /\
      forall t,
        In t rows <->
        In t (tbl_transactions w) /\
        txn_username t = username /\
        clock w - clock w mod 86400 - 7 * 86400 <= txn_timestamp t).
  { intros rows ->. split; [apply order_by_timestamp_desc_perm |].
    split; [apply order_by_timestamp_desc_sorted |].
    intros t. rewrite <- date_now_minus_7_days_midnight, <- selected_iff,
      <- filter_In.
    split; apply Permutation_in;
      [| apply Permutation_sym]; apply order_by_timestamp_desc_perm. }
  unfold TransactionsDB.get_transactions, try_except_OperationalError,
    Sqlite.select_transactions, bind, Sqlite.execute, unreachable.
  destruct (faults w) as [| [|] rest] eqn:F; cbn; eexists; eexists;
    (split; [reflexivity |]); (split; [reflexivity |]); split.
  - intros [r Hr]. discriminate.
  - intros _. apply Hgood. reflexivity.
  - intros _. reflexivity.
  - intros Hu. exfalso. apply Hu. exists rest. reflexivity.
  - intros [r Hr]. discriminate.
  - intros _. apply Hgood. reflexivity.
Qed.

(** ** The scenario of the specification, evaluated *)

Example scenario_balances :
  balance_of "current" "alice" scenario = Some (VReal (-65)) /\
  balance_of "savings" "alice" scenario = Some (VReal 40).
Proof. split; vm_compute; reflexivity. Qed.

Example scenario_ledger :
  TransactionsDB.get_transactions "alice" (tick 60 scenario)
  = (Ok [mkTransaction 3 "alice" "transfer" 10 "savings_to_current" 907320;
         mkTransaction 2 "alice" "withdraw" 200 "current" 907260;
         mkTransaction 1 "alice" "deposit" 25 "current" 907200],
     tick 60 scenario).
Proof. vm_compute. reflexivity. Qed.

Example crypto_is_not_a_column :
  UsersDB.get_column_from_username "crypto" "alice" bank
  = (Raise (ValueError "Disallowed column: crypto"), bank).
Proof. reflexivity. Qed.

Example display_name_is_a_column :
  UsersDB.get_column_from_username "display_name" "alice" bank
  = (Ok (VText "Alice"), bank).
Proof. reflexivity. Qed.

Example number_into_text_column :
  UsersDB.set_column_from_username (P := sample_platform) "display_name" "alice"
                                   (VInt 5) bank
  = (Ok tt,
     mkWorld [mkAccount 1 (VText "alice") (VText "5") (VText "$2b$12$secret")
                        (VReal 100) (VReal 50)]
             1 [] 0 907200 [] [UpdatedAccount "display_name" "alice" (VText "5")] []).
Proof. reflexivity. Qed.

Example username_is_not_null :
  UsersDB.set_column_from_username (P := sample_platform) "username" "alice"
                                   VNull bank
  = (Raise IntegrityError, bank).
Proof. reflexivity. Qed.

Example broken_store_reads_nothing :
  TransactionsDB.get_transactions "alice" broken_bank
  = (Ok [], mkWorld [alice] 1 [stale_record] 1 907200 [] [] [ERROR]).
Proof. reflexivity. Qed.

(** ** The claims at concrete inputs *)

Lemma deposit_increases_balance_witness :
  exists w',
    Actions.deposit_into_account (P := sample_platform) "alice" 25 "current" bank
      = (Ok tt, w') /\
    balance_of "current" "alice" w' = Some (VReal 125) /\
    balance_of (other "current") "alice" w' = balance_of (other "current") "alice" bank /\
    tbl_transactions w'
    = tbl_transactions bank
      ++ [mkTransaction (next_transaction_id bank) "alice" "deposit" 25
                        "current" (clock bank)].
Proof.
  apply (deposit_increases_balance (P := sample_platform)
           "alice" "current" 25 100 bank);
    [reflexivity | left; reflexivity | reflexivity | reflexivity].
Defined.

Lemma withdraw_decreases_balance_witness :
  exists w',
    Actions.withdraw_from_account (P := sample_platform) "alice" 200 "current" bank
      = (Ok tt, w') /\
    balance_of "current" "alice" w' = Some (VReal (-100)) /\
    balance_of (other "current") "alice" w' = balance_of (other "current") "alice" bank /\
    tbl_transactions w'
    = tbl_transactions bank
      ++ [mkTransaction (next_transaction_id bank) "alice" "withdraw" 200
                        "current" (clock bank)].
Proof.
  apply (withdraw_decreases_balance (P := sample_platform)
           "alice" "current" 200 100 bank);
    [reflexivity | left; reflexivity | reflexivity | reflexivity].
Defined.

Lemma transfer_as_withdraw_then_deposit_witness :
  exists w1 w2 wt,
    Actions.withdraw_from_account (P := sample_platform) "alice" 75 "current" bank
      = (Ok tt, w1) /\
    Actions.deposit_into_account (P := sample_platform) "alice" 75 "savings" w1
      = (Ok tt, w2) /\
    Actions.transfer_between_accounts (P := sample_platform) "alice" 75 "current" bank
      = (Ok tt, wt) /\
    tbl_accounts wt = tbl_accounts w2 /\
    balance_of "current" "alice" wt = balance_of "current" "alice" w2 /\
    balance_of "savings" "alice" wt = balance_of "savings" "alice" w2 /\
    balance_of "current" "alice" wt = Some (VReal 25) /\
    balance_of "savings" "alice" wt = Some (VReal 125) /\
    tbl_transactions wt
    = tbl_transactions bank
      ++ [mkTransaction (next_transaction_id bank) "alice" "transfer" 75
                        "current_to_savings" (clock bank)] /\
    tbl_transactions w2
    = tbl_transactions bank
      ++ [mkTransaction (next_transaction_id bank) "alice" "withdraw" 75
                        "current" (clock bank);
          mkTransaction (next_transaction_id w1) "alice" "deposit" 75
                        "savings" (clock bank)].
Proof.
  apply (transfer_as_withdraw_then_deposit (P := sample_platform)
           "alice" 75 100 50 bank); reflexivity.
Defined.

Lemma transfer_from_savings_witness :
  exists w',
    Actions.transfer_between_accounts (P := sample_platform) "alice" 10 "savings" bank
      = (Ok tt, w') /\
    balance_of "savings" "alice" w' = Some (VReal 40) /\
    balance_of "current" "alice" w' = Some (VReal 110) /\
    tbl_transactions w'
    = tbl_transactions bank
      ++ [mkTransaction (next_transaction_id bank) "alice" "transfer" 10
                        "savings_to_current" (clock bank)] /\
    trace w'
    = trace bank
      ++ [UpdatedAccount "current_balance" "alice" (VReal 110);
          UpdatedAccount "savings_balance" "alice" (VReal 40);
          InsertedTransaction
            (mkTransaction (next_transaction_id bank) "alice" "transfer" 10
                           "savings_to_current" (clock bank))].
Proof.
  apply (transfer_from_savings (P := sample_platform) "alice" 10 100 50 bank);
    reflexivity.
Defined.

Lemma invalid_amount_rejected_witness :
  (Actions.deposit_into_account (P := sample_platform) "alice" 0 "current" bank
     = (Raise (ValueError "Deposit amount must be positive"), bank) /\
   Actions.withdraw_from_account (P := sample_platform) "alice" 0 "current" bank
     = (Raise (ValueError "Withdrawal amount must be positive"), bank) /\
   Actions.transfer_between_accounts (P := sample_platform) "alice" 0 "current" bank
     = (Raise (ValueError "Transfer amount must be positive"), bank) /\
   InvalidAmount (ValueError "Deposit amount must be positive") /\
   InvalidAmount (ValueError "Withdrawal amount must be positive") /\
   InvalidAmount (ValueError "Transfer amount must be positive"))
  /\
  (Actions.deposit_into_account (P := sample_platform) "alice" (-1) "crypto" bank
     = (Raise (ValueError "Deposit amount must be positive"), bank) /\
   Actions.withdraw_from_account (P := sample_platform) "alice" (-1) "crypto" bank
     = (Raise (ValueError "Withdrawal amount must be positive"), bank) /\
   Actions.transfer_between_accounts (P := sample_platform) "alice" (-1) "crypto" bank
     = (Raise (ValueError "Transfer amount must be positive"), bank) /\
   InvalidAmount (ValueError "Deposit amount must be positive") /\
   InvalidAmount (ValueError "Withdrawal amount must be positive") /\
   InvalidAmount (ValueError "Transfer amount must be positive")).
Proof.
  split.
  - apply (invalid_amount_rejected (P := sample_platform) "alice" "current" 0 bank).
    reflexivity.
  - apply (invalid_amount_rejected (P := sample_platform) "alice" "crypto" (-1) bank).
    reflexivity.
Defined.

Lemma invalid_selector_rejected_witness :
  Actions.deposit_into_account (P := sample_platform) "alice" 10 "crypto" bank
    = (Raise (ValueError "target_account must be 'current' or 'savings'"), bank) /\
  Actions.withdraw_from_account (P := sample_platform) "alice" 10 "crypto" bank
    = (Raise (ValueError "target_account must be 'current' or 'savings'"), bank) /\
  Actions.transfer_between_accounts (P := sample_platform) "alice" 10 "crypto" bank
    = (Raise (ValueError "source_account must be 'current' or 'savings'"), bank) /\
  InvalidAccountSelector
    (ValueError "target_account must be 'current' or 'savings'") /\
  InvalidAccountSelector
    (ValueError "source_account must be 'current' or 'savings'").
Proof.
  apply (invalid_selector_rejected (P := sample_platform) "alice" "crypto" 10 bank).
  - reflexivity.
  - intros [H | H]; discriminate H.
Defined.

Lemma duplicate_registration_rejected_witness :
  exists w',
    UsersDB.create_new_user (P := sample_platform) "alice" "Impostor" "password123"
                            0 0 bank
      = (Raise IntegrityError, w') /\
    DuplicateUser IntegrityError /\
    tbl_accounts w' = tbl_accounts bank /\
    seq_accounts w' = seq_accounts bank /\
    account_of "alice" w' = account_of "alice" bank /\
    balance_of "current" "alice" w' = balance_of "current" "alice" bank /\
    balance_of "savings" "alice" w' = balance_of "savings" "alice" bank.
Proof.
  apply (duplicate_registration_rejected (P := sample_platform)
           "alice" "Impostor" "password123" 0 0 bank).
  - discriminate.
  - intros [rest H]. discriminate H.
Defined.

Lemma missing_account_fails_at_balance_read_witness :
  (exists w',
      read_balance (P := sample_platform) "savings" "bob" bank = (Raise TypeError, w') /\
      Actions.deposit_into_account (P := sample_platform) "bob" 10 "savings" bank
        = (Raise TypeError, w') /\
      Actions.withdraw_from_account (P := sample_platform) "bob" 10 "savings" bank
        = (Raise TypeError, w') /\
      nothing_written bank w') /\
  (exists w',
      UsersDB.get_current_balance (P := sample_platform) "bob" bank
        = (Raise TypeError, w') /\
      Actions.transfer_between_accounts (P := sample_platform) "bob" 10 "savings" bank
        = (Raise TypeError, w') /\
      nothing_written bank w').
Proof.
  apply (missing_account_fails_at_balance_read (P := sample_platform)
           "bob" "savings" 10 bank);
    [reflexivity | right; reflexivity | reflexivity].
Defined.

(** C1, as the specification words it, fails on the code: the balance is a
    binary64 float and the sum is rounded.  A deposit of 1.00 into a current
    balance of 10^16 returns and appends its ledger record, and the balance is
    10^16 as before: it did not increase by the amount. *)
Lemma deposit_lost_to_rounding :
  (0 <? 1)%float = true /\
  valid_selector "current" /\
  healthy whale_bank /\
  balance_of "current" "alice" whale_bank = Some (VReal 10000000000000000) /\
  exists w',
    Actions.deposit_into_account (P := sample_platform) "alice" 1 "current" whale_bank
      = (Ok tt, w') /\
    balance_of "current" "alice" w' = Some (VReal 10000000000000000) /\
    tbl_transactions w'
    = [mkTransaction 1 "alice" "deposit" 1 "current" (clock whale_bank)].
Proof.
  split; [reflexivity |]. split; [left; reflexivity |].
  split; [reflexivity |]. split; [reflexivity |].
  eexists. split; [vm_compute; reflexivity |]. split; reflexivity.
Qed.

(** C2, as the specification words it, fails on the code for the same reason:
    a withdrawal of 1.00 from a current balance of 10^16 returns and appends
    its ledger record, and the balance is 10^16 as before: it did not
    decrease by the amount. *)
Lemma withdrawal_lost_to_rounding :
  (0 <? 1)%float = true /\
  valid_selector "current" /\
  healthy whale_bank /\
  balance_of "current" "alice" whale_bank = Some (VReal 10000000000000000) /\
  exists w',
    Actions.withdraw_from_account (P := sample_platform) "alice" 1 "current" whale_bank
      = (Ok tt, w') /\
    balance_of "current" "alice" w' = Some (VReal 10000000000000000) /\
    tbl_transactions w'
    = [mkTransaction 1 "alice" "withdraw" 1 "current" (clock whale_bank)].
Proof.
  split; [reflexivity |]. split; [left; reflexivity |].
  split; [reflexivity |]. split; [reflexivity |].
  eexists. split; [vm_compute; reflexivity |]. split; reflexivity.
Qed.

(** C4, as the specification words it, fails on the code for the same reason:
    a transfer of 1.00 out of savings takes savings from 50.00 to 49.00 and
    leaves a current balance of 10^16 at 10^16: the current balance did not
    increase by the amount. *)
Lemma transfer_lost_to_rounding :
  (0 <? 1)%float = true /\
  healthy whale_bank /\
  balance_of "current" "alice" whale_bank = Some (VReal 10000000000000000) /\
  balance_of "savings" "alice" whale_bank = Some (VReal 50) /\
  exists w',
    Actions.transfer_between_accounts (P := sample_platform) "alice" 1 "savings"
                                      whale_bank
      = (Ok tt, w') /\
    balance_of "savings" "alice" w' = Some (VReal 49) /\
    balance_of "current" "alice" w' = Some (VReal 10000000000000000).
Proof.
  split; [reflexivity |]. split; [reflexivity |].
  split; [reflexivity |]. split; [reflexivity |].
  eexists. split; [vm_compute; reflexivity |]. split; reflexivity.
Qed.

(** C9, as the specification words it, fails on the code: at noon of
    1970-01-11 the healthy store returns a record of 1970-01-04 03:00:00, which
    is seven days and nine hours old and not within the last seven days. *)
Lemma get_transactions_returns_older_record :
  healthy stale_bank /\
  TransactionsDB.get_transactions "alice" stale_bank = (Ok [stale_record], stale_bank) /\
  ~ within_last_7_days (clock stale_bank) (txn_timestamp stale_record).
Proof.
  split; [reflexivity |]. split; [reflexivity |].
  unfold within_last_7_days. cbn. lia.
Qed.

(** * Further properties of the three modules *)

(** ** What every outcome keeps *)

Lemma updated_rows_no_match (c : Sqlite.column) (username : string) (v : value)
    (tbl : list account) :
  existsb (Sqlite.matches username) tbl = false ->
  Sqlite.updated_rows c username v tbl = tbl.
Proof.
  unfold Sqlite.updated_rows. induction tbl as [| r tbl IH]; [reflexivity |].
  cbn. intros H. apply orb_false_iff in H. destruct H as [Hr Ht].
  rewrite Hr, (IH Ht). reflexivity.
Qed.

Section Preservation.
Context {P : Platform}.
Variable R : world -> world -> Prop.
Hypothesis R_trans : forall a b c, R a b -> R b c -> R a c.
Hypothesis R_quiet : forall w w', read_only w w' -> R w w'.

Lemma R_refl (w : world) : R w w.
Proof. apply R_quiet. repeat split. Qed.

Lemma preserves_ret {A} (a : A) : preserves R (ret a).
Proof. intros w r w' E. inversion E. apply R_refl. Qed.

Lemma preserves_raise {A} (e : exn) : preserves R (raise (A := A) e).
Proof. intros w r w' E. inversion E. apply R_refl. Qed.

Lemma preserves_lift {A} (x : result A) : preserves R (lift x).
Proof. intros w r w' E. inversion E. apply R_refl. Qed.

Lemma preserves_logger (lvl : level) : preserves R (logger lvl).
Proof. intros w r w' E. inversion E. apply R_quiet. repeat split. Qed.

Lemma preserves_bind {A B} (c : M A) (k : A -> M B) :
  preserves R c -> (forall a, preserves R (k a)) -> preserves R (bind c k).
Proof.
  intros Hc Hk w r w' E. unfold bind in E.
  destruct (c w) as [[a | e] w1] eqn:Ec.
  - apply (R_trans _ w1); [exact (Hc _ _ _ Ec) | exact (Hk a _ _ _ E)].
  - inversion E; subst. exact (Hc _ _ _ Ec).
Qed.

Lemma preserves_try {A} (body handler : M A) :
  preserves R body -> preserves R handler ->
  preserves R (try_except_OperationalError body handler).
Proof.
  intros Hb Hh w r w' E. unfold try_except_OperationalError in E.
  destruct (body w) as [[a | e] w1] eqn:Eb.
  - inversion E; subst. exact (Hb _ _ _ Eb).
  - destruct e; try (inversion E; subst; exact (Hb _ _ _ Eb)).
    apply (R_trans _ w1); [exact (Hb _ _ _ Eb) | exact (Hh _ _ _ E)].
Qed.

Lemma preserves_select_account (name username : string) :
  preserves R (Sqlite.select_account name username).
Proof.
  intros w r w' E.
  unfold Sqlite.select_account, bind, Sqlite.execute, gets, ret, raise in E.
  destruct (faults w) as [| [|] rest]; cbn in E;
    try destruct (Sqlite.resolve name); inversion E; subst;
    apply R_quiet; repeat split.
Qed.

Lemma preserves_select_transactions (username : string) :
  preserves R (Sqlite.select_transactions username).
Proof.
  intros w r w' E.
  unfold Sqlite.select_transactions, bind, Sqlite.execute, gets, ret in E.
  destruct (faults w) as [| [|] rest]; cbn in E; inversion E; subst;
    apply R_quiet; repeat split.
Qed.

Lemma preserves_update_account (name username : string) (new_data : value) :
  admits_update R name username ->
  preserves R (Sqlite.update_account name username new_data).
Proof.
  intros Hu w r w' E.
  unfold Sqlite.update_account in E.
  destruct (Sqlite.resolve name) as [c |] eqn:Er;
    [| unfold raise in E; inversion E; subst; apply R_refl].
  unfold bind, lift in E.
  destruct (Sqlite.bind new_data) as [bound | e0];
    [| inversion E; subst; apply R_refl].
  unfold Sqlite.execute, gets, ret, raise, modify, Sqlite.commit in E.
  destruct (faults w) as [| [|] rest]; cbn in E;
    try (destruct (existsb (Sqlite.matches username) (tbl_accounts w)) eqn:Ex;
         cbn in E;
         [destruct (negb (Sqlite.admissible c (Sqlite.affinity c bound))
                    || Sqlite.conflicts c username (Sqlite.affinity c bound)
                                        (tbl_accounts w)); cbn in E |]);
    inversion E; subst;
    try (apply R_quiet; repeat split; fail);
    apply (Hu c (Sqlite.affinity c bound)); try exact Er;
    try reflexivity;
    cbn; symmetry; apply updated_rows_no_match; exact Ex.
Qed.

Lemma preserves_insert_transaction (username kind : string) (amount : float)
    (label : string) :
  admits_append R ->
  preserves R (Sqlite.insert_transaction username kind amount label).
Proof.
  intros Ha w r w' E.
  unfold Sqlite.insert_transaction, bind, Sqlite.execute, gets, modify, raise,
    Sqlite.commit in E.
  destruct (faults w) as [| [|] rest]; cbn in E;
    try (destruct (is_nan amount); cbn in E);
    inversion E; subst;
    try (apply R_quiet; repeat split; fail);
    eapply Ha; reflexivity.
Qed.

Lemma preserves_insert_account (username display_name password_hash : string)
    (current_balance savings_balance : float) :
  admits_insert R ->
  preserves R (Sqlite.insert_account username display_name password_hash
                                     current_balance savings_balance).
Proof.
  intros Ha w r w' E.
  unfold Sqlite.insert_account, bind, Sqlite.execute, gets, modify, raise,
    Sqlite.commit in E.
  destruct (faults w) as [| [|] rest]; cbn in E;
    try (destruct (existsb (Sqlite.matches username) (tbl_accounts w)); cbn in E);
    inversion E; subst;
    try (apply R_quiet; repeat split; fail);
    eapply Ha; reflexivity.
Qed.

Lemma preserves_get_column (column username : string) :
  preserves R (UsersDB.get_column_from_username column username).
Proof.
  unfold UsersDB.get_column_from_username.
  destruct (negb (contains column UsersDB.ALLOWED_COLUMNS)).
  - apply preserves_raise.
  - apply preserves_try.
    + apply preserves_bind; [apply preserves_select_account |].
      intros [data |]; [apply preserves_ret |].
      apply preserves_bind; [apply preserves_logger | intros; apply preserves_ret].
    + apply preserves_bind; [apply preserves_logger | intros; apply preserves_ret].
Qed.

Lemma preserves_set_column (column username : string) (new_data : value) :
  admits_update R column username ->
  preserves R (UsersDB.set_column_from_username column username new_data).
Proof.
  intros Hu. unfold UsersDB.set_column_from_username.
  destruct (negb (contains column UsersDB.ALLOWED_COLUMNS)).
  - apply preserves_raise.
  - apply preserves_try; [| apply preserves_logger].
    apply preserves_update_account. exact Hu.
Qed.

Lemma preserves_get_current_balance (username : string) :
  preserves R (UsersDB.get_current_balance username).
Proof.
  apply preserves_bind; [apply preserves_get_column | intros; apply preserves_lift].
Qed.

Lemma preserves_get_savings_balance (username : string) :
  preserves R (UsersDB.get_savings_balance username).
Proof.
  apply preserves_bind; [apply preserves_get_column | intros; apply preserves_lift].
Qed.

Lemma preserves_add_current_balance (username : string) (balance : float) :
  admits_update R "current_balance" username ->
  preserves R (UsersDB.add_current_balance username balance).
Proof.
  intros Hu. apply preserves_bind; [apply preserves_get_current_balance |].
  intros previous. apply preserves_set_column. exact Hu.
Qed.

Lemma preserves_add_savings_balance (username : string) (balance : float) :
  admits_update R "savings_balance" username ->
  preserves R (UsersDB.add_savings_balance username balance).
Proof.
  intros Hu. apply preserves_bind; [apply preserves_get_savings_balance |].
  intros previous. apply preserves_set_column. exact Hu.
Qed.

Lemma preserves_log_transaction (username kind : string) (amount : float)
    (label : string) :
  admits_append R ->
  preserves R (TransactionsDB.log_transaction username kind amount label).
Proof.
  intros Ha. apply preserves_try; [| apply preserves_logger].
  apply preserves_insert_transaction. exact Ha.
Qed.

Lemma preserves_get_transactions (username : string) :
  preserves R (TransactionsDB.get_transactions username).
Proof.
  apply preserves_try; [apply preserves_select_transactions |].
  apply preserves_bind; [apply preserves_logger | intros; apply preserves_ret].
Qed.

Lemma preserves_create_new_user (username display_name password : string)
    (current_balance savings_balance : float) :
  admits_insert R ->
  preserves R (UsersDB.create_new_user username display_name password
                                       current_balance savings_balance).
Proof.
  intros Ha. apply preserves_try; [| apply preserves_logger].
  apply preserves_insert_account. exact Ha.
Qed.

(** A body of [Actions]: the balance updates, the ledger append, the log line. *)
Ltac body Hc Hs Ha :=
  repeat first
    [ apply preserves_add_current_balance; exact Hc
    | apply preserves_add_savings_balance; exact Hs
    | apply preserves_log_transaction; exact Ha
    | apply preserves_logger
    | apply preserves_raise
    | apply preserves_ret
    | apply preserves_bind; [| intros ] ].

Lemma preserves_actions (username : string) (value : float) (selector : string) :
  admits_update R "current_balance" username ->
  admits_update R "savings_balance" username ->
  admits_append R ->
  preserves R (Actions.deposit_into_account username value selector) /\
  preserves R (Actions.withdraw_from_account username value selector) /\
  preserves R (Actions.transfer_between_accounts username value selector).
Proof.
  intros Hc Hs Ha.
  unfold Actions.deposit_into_account, Actions.withdraw_from_account,
    Actions.transfer_between_accounts.
  destruct (value <=? 0)%float;
    [repeat split; apply preserves_raise |].
  destruct (negb (contains selector ["current"; "savings"]));
    [repeat split; apply preserves_raise |].
  destruct (String.eqb selector "current"); [repeat split; body Hc Hs Ha |].
  destruct (String.eqb selector "savings"); repeat split; body Hc Hs Ha.
Qed.

End Preservation.

Lemma preserves_impl {A} (R R' : world -> world -> Prop) (c : M A) :
  (forall w w', R w w' -> R' w w') -> preserves R c -> preserves R' c.
Proof. intros H Hc w r w' E. apply H. exact (Hc _ _ _ E). Qed.

Lemma read_only_trans (a b c : world) :
  read_only a b -> read_only b c -> read_only a c.
Proof.
  unfold read_only. intros (H1 & H2 & H3 & H4 & H5) (K1 & K2 & K3 & K4 & K5).
  repeat split; congruence.
Qed.

Lemma ledger_extends_trans (a b c : world) :
  ledger_extends a b -> ledger_extends b c -> ledger_extends a c.
Proof.
  intros [l1 H1] [l2 H2]. exists (l1 ++ l2).
  rewrite H2, H1, app_assoc. reflexivity.
Qed.

Lemma ledger_extends_quiet (w w' : world) : read_only w w' -> ledger_extends w w'.
Proof.
  intros (_ & _ & H & _). exists []. rewrite H, app_nil_r. reflexivity.
Qed.

Lemma matches_same_username (username : string) (r r' : account) :
  acc_username r' = acc_username r ->
  Sqlite.matches username r' = Sqlite.matches username r.
Proof. unfold Sqlite.matches. intros H. rewrite H. reflexivity. Qed.

Lemma same_but_balances_refl (username : string) (r : account) :
  same_but_balances username r r.
Proof. repeat split. Qed.

Lemma same_but_balances_trans (username : string) (a b c : account) :
  same_but_balances username a b -> same_but_balances username b c ->
  same_but_balances username a c.
Proof.
  intros (H1 & H2 & H3 & H4 & H5) (K1 & K2 & K3 & K4 & K5).
  repeat split; try congruence.
  intros Hm. rewrite K5, H5; auto.
  rewrite (matches_same_username username a b H2). exact Hm.
Qed.

Lemma Forall2_trans {A} (S : A -> A -> Prop) :
  (forall a b c, S a b -> S b c -> S a c) ->
  forall l1 l2 l3, Forall2 S l1 l2 -> Forall2 S l2 l3 -> Forall2 S l1 l3.
Proof.
  intros HS l1 l2 l3 H12. revert l3.
  induction H12 as [| a b l1 l2 Hab H12 IH]; intros l3 H23;
    inversion H23; subst; constructor; eauto.
Qed.

Lemma Forall2_refl {A} (S : A -> A -> Prop) :
  (forall a, S a a) -> forall l, Forall2 S l l.
Proof. intros HS l. induction l; constructor; auto. Qed.

Lemma only_balances_of_trans (username : string) (a b c : world) :
  only_balances_of username a b -> only_balances_of username b c ->
  only_balances_of username a c.
Proof.
  unfold only_balances_of. apply Forall2_trans.
  apply same_but_balances_trans.
Qed.

Lemma only_balances_of_quiet (username : string) (w w' : world) :
  read_only w w' -> only_balances_of username w w'.
Proof.
  intros (H & _). unfold only_balances_of. rewrite H.
  apply Forall2_refl. apply same_but_balances_refl.
Qed.

(** An update of a balance column under [WHERE username = ?] changes the
    balances of the rows of [username] and nothing else. *)
Lemma updated_rows_balances (c : Sqlite.column) (username : string) (v : value)
    (tbl : list account) :
  c = Sqlite.Ccurrent_balance \/ c = Sqlite.Csavings_balance ->
  Forall2 (same_but_balances username) tbl (Sqlite.updated_rows c username v tbl).
Proof.
  intros Hc. unfold Sqlite.updated_rows.
  induction tbl as [| r tbl IH]; cbn; constructor; [| exact IH].
  destruct (Sqlite.matches username r) eqn:Em.
  - destruct Hc; subst c; repeat split; intros H; congruence.
  - apply same_but_balances_refl.
Qed.

(** Rows that differ at most in the balances of [username] answer a lookup by
    any other name alike. *)
Lemma only_balances_of_other (username other_user : string) (w w' : world) :
  only_balances_of username w w' ->
  other_user <> username ->
  account_of other_user w' = account_of other_user w.
Proof.
  unfold only_balances_of, account_of. intros H Hne.
  induction H as [| r r' l l' Hr H IH]; [reflexivity |].
  cbn. destruct Hr as (_ & Hu & _ & _ & Hsame).
  rewrite (matches_same_username other_user r r' Hu).
  destruct (Sqlite.matches other_user r) eqn:Em; [| exact IH].
  rewrite Hsame; [reflexivity |].
  unfold Sqlite.matches in *. destruct (acc_username r); try reflexivity.
  apply String.eqb_eq in Em. subst s. apply String.eqb_neq. exact Hne.
Qed.

Lemma only_balances_of_length (username : string) (w w' : world) :
  only_balances_of username w w' ->
  length (tbl_accounts w') = length (tbl_accounts w).
Proof. intros H. symmetry. exact (Forall2_length H). Qed.

(** X1. Reads write nothing.  Whatever the column, the user and the faults
    of the store, and whether they return or raise, the getters of [UsersDB]
    and [get_transactions] leave both tables, both AUTOINCREMENT counters and
    the record of committed writes as they found them. *)
Theorem reads_write_nothing :
  forall {P : Platform} (int_of_str : string -> result Z)
         (column username : string),
    preserves read_only (UsersDB.get_column_from_username column username) /\
    preserves read_only (UsersDB.get_password_hash username) /\
    preserves read_only (UsersDB.get_user_exists username) /\
    preserves read_only (UsersDB.get_current_balance username) /\
    preserves read_only (UsersDB.get_savings_balance username) /\
    preserves read_only (UsersDB.get_account_number int_of_str username) /\
    preserves read_only (TransactionsDB.get_transactions username).
Proof.
  intros P int_of_str column username.
  pose proof (preserves_get_column read_only read_only_trans (fun _ _ H => H))
    as Hget.
  split; [| split; [| split; [| split; [| split; [| split]]]]].
  - apply Hget.
  - apply Hget.
  - apply preserves_bind; [exact read_only_trans | apply Hget |].
    intros data. apply preserves_ret. auto.
  - apply (preserves_get_current_balance read_only read_only_trans (fun _ _ H => H)).
  - apply (preserves_get_savings_balance read_only read_only_trans (fun _ _ H => H)).
  - apply preserves_bind; [exact read_only_trans | apply Hget |].
    intros data. apply preserves_lift. auto.
  - apply (preserves_get_transactions read_only read_only_trans (fun _ _ H => H)).
Qed.

(** X2. The ledger is append-only.  Every method of [UsersDB],
    [TransactionsDB] and [Actions], whatever its arguments, the faults of the
    store and its outcome, leaves the old ledger records unchanged and in
    place: the new ledger is the old one followed by what was appended. *)
Theorem ledger_is_append_only :
  forall {P : Platform}
         (username display_name password column kind label selector : string)
         (amount current_balance savings_balance : float) (new_data : value),
    preserves ledger_extends
      (UsersDB.create_new_user username display_name password
                               current_balance savings_balance) /\
    preserves ledger_extends
      (UsersDB.set_column_from_username column username new_data) /\
    preserves ledger_extends (UsersDB.add_current_balance username amount) /\
    preserves ledger_extends (UsersDB.add_savings_balance username amount) /\
    preserves ledger_extends
      (TransactionsDB.log_transaction username kind amount label) /\
    preserves ledger_extends (TransactionsDB.get_transactions username) /\
    preserves ledger_extends
      (Actions.deposit_into_account username amount selector) /\
    preserves ledger_extends
      (Actions.withdraw_from_account username amount selector) /\
    preserves ledger_extends
      (Actions.transfer_between_accounts username amount selector).
Proof.
  intros.
  assert (Hu : forall name user, admits_update ledger_extends name user).
  { intros name user c v w w' _ _ H. exists []. rewrite H, app_nil_r. reflexivity. }
  assert (Ha : admits_append ledger_extends).
  { intros row w w' _ H. exists [row]. exact H. }
  assert (Hi : admits_insert ledger_extends).
  { intros row w w' _ H. exists []. rewrite H, app_nil_r. reflexivity. }
  pose proof (preserves_actions ledger_extends ledger_extends_trans
                ledger_extends_quiet username amount selector
                (Hu _ _) (Hu _ _) Ha) as (Hd & Hw & Ht).
  split; [| split; [| split; [| split; [| split; [| split; [| split;
    [exact Hd | split; [exact Hw | exact Ht]]]]]]]].
  - apply preserves_create_new_user;
      first [exact ledger_extends_trans | exact ledger_extends_quiet
            | exact Hi | exact Ha | exact (Hu _ _)].
  - apply preserves_set_column;
      first [exact ledger_extends_trans | exact ledger_extends_quiet
            | exact Hi | exact Ha | exact (Hu _ _)].
  - apply preserves_add_current_balance;
      first [exact ledger_extends_trans | exact ledger_extends_quiet
            | exact Hi | exact Ha | exact (Hu _ _)].
  - apply preserves_add_savings_balance;
      first [exact ledger_extends_trans | exact ledger_extends_quiet
            | exact Hi | exact Ha | exact (Hu _ _)].
  - apply preserves_log_transaction;
      first [exact ledger_extends_trans | exact ledger_extends_quiet
            | exact Hi | exact Ha | exact (Hu _ _)].
  - apply preserves_get_transactions;
      first [exact ledger_extends_trans | exact ledger_extends_quiet
            | exact Hi | exact Ha | exact (Hu _ _)].
Qed.

Lemma actions_keep_rows {P : Platform} (username selector : string) (amount : float) :
  preserves (only_balances_of username)
    (Actions.deposit_into_account username amount selector) /\
  preserves (only_balances_of username)
    (Actions.withdraw_from_account username amount selector) /\
  preserves (only_balances_of username)
    (Actions.transfer_between_accounts username amount selector).
Proof.
  assert (Hc : admits_update (only_balances_of username) "current_balance" username).
  { intros c v w w' Hr Ht _. unfold only_balances_of. rewrite Ht.
    apply updated_rows_balances. left. cbn in Hr. congruence. }
  assert (Hs : admits_update (only_balances_of username) "savings_balance" username).
  { intros c v w w' Hr Ht _. unfold only_balances_of. rewrite Ht.
    apply updated_rows_balances. right. cbn in Hr. congruence. }
  assert (Ha : admits_append (only_balances_of username)).
  { intros row w w' Ht _. unfold only_balances_of. rewrite Ht.
    apply Forall2_refl. apply same_but_balances_refl. }
  exact (preserves_actions (only_balances_of username)
           (only_balances_of_trans username)
           (only_balances_of_quiet username) username amount selector
           Hc Hs Ha).
Qed.

(** X3. Deposit, withdraw and transfer for a user, whatever the amount, the
    selector, the faults of the store and the outcome, keep every row of the
    accounts table in place with its id, username, display name and password
    hash, change at most the two balances of that user's own row, and so leave
    the account of every other user exactly as it was. *)
Theorem actions_touch_only_own_balances :
  forall {P : Platform} (username selector : string) (amount : float),
    let kept w w' :=
      only_balances_of username w w' /\
      length (tbl_accounts w') = length (tbl_accounts w) /\
      forall other_user,
        other_user <> username ->
        account_of other_user w' = account_of other_user w in
    preserves kept (Actions.deposit_into_account username amount selector) /\
    preserves kept (Actions.withdraw_from_account username amount selector) /\
    preserves kept (Actions.transfer_between_accounts username amount selector).
Proof.
  intros P username selector amount kept.
  assert (Hk : forall w w', only_balances_of username w w' -> kept w w').
  { intros w w' H. split; [exact H |]. split.
    - apply (only_balances_of_length username). exact H.
    - intros other_user Hne. apply (only_balances_of_other username); assumption. }
  destruct (actions_keep_rows username selector amount) as (Hd & Hw & Ht).
  split; [| split]; eapply preserves_impl; eauto.
Qed.

(** ** Reading a column *)

Lemma find_none_existsb {A} (f : A -> bool) (l : list A) :
  find f l = None -> existsb f l = false.
Proof.
  induction l as [| a l IH]; [reflexivity |]. cbn.
  destruct (f a); [discriminate | exact IH].
Qed.

Lemma find_app_last {A} (f : A -> bool) (l : list A) (x : A) :
  find f l = None -> f x = true -> find f (l ++ [x]) = Some x.
Proof.
  induction l as [| a l IH]; cbn; intros Hn Hx.
  - rewrite Hx. reflexivity.
  - destruct (f a); [discriminate | auto].
Qed.

Lemma find_app_other {A} (f : A -> bool) (l : list A) (x : A) :
  f x = false -> find f (l ++ [x]) = find f l.
Proof.
  intros Hx. induction l as [| a l IH]; cbn.
  - rewrite Hx. reflexivity.
  - destruct (f a); [reflexivity | exact IH].
Qed.

Lemma next_id_fresh (seq : Z) (ids : list Z) :
  seq < Sqlite.next_id seq ids /\ Forall (fun n => n < Sqlite.next_id seq ids) ids.
Proof.
  unfold Sqlite.next_id. induction ids as [| n ids [IHs IHf]]; cbn.
  - split; [lia | constructor].
  - split; [lia |]. constructor; [lia |].
    eapply Forall_impl; [| exact IHf]. cbn. intros a Ha. lia.
Qed.

Lemma get_column_run (column username : string) (w : world) (r : account)
    (c : Sqlite.column) :
  healthy w ->
  In column UsersDB.ALLOWED_COLUMNS ->
  Sqlite.resolve column = Some c ->
  account_of username w = Some r ->
  UsersDB.get_column_from_username column username w = (Ok (Sqlite.cell c r), w).
Proof.
  intros Hh Hin Hr Ha. apply contains_In in Hin. unfold account_of in Ha.
  unfold UsersDB.get_column_from_username. rewrite Hin. cbn [negb].
  unfold try_except_OperationalError, Sqlite.select_account, bind.
  rewrite (execute_healthy w Hh), Hr. cbn. rewrite Ha. reflexivity.
Qed.

Lemma get_column_missing_run (column username : string) (w : world) :
  healthy w ->
  In column UsersDB.ALLOWED_COLUMNS ->
  account_of username w = None ->
  UsersDB.get_column_from_username column username w
  = (Ok VNull, after_log WARNING w).
Proof.
  intros Hh Hin Ha. destruct (allowed_resolves column Hin) as [Hc [c Hr]].
  unfold account_of in Ha.
  unfold UsersDB.get_column_from_username. rewrite Hc. cbn [negb].
  unfold try_except_OperationalError, Sqlite.select_account, bind.
  rewrite (execute_healthy w Hh), Hr. cbn. rewrite Ha. reflexivity.
Qed.

Lemma get_column_fault_run (column username : string) (w : world)
    (rest : list bool) :
  faults w = true :: rest ->
  In column UsersDB.ALLOWED_COLUMNS ->
  UsersDB.get_column_from_username column username w
  = (Ok VNull, after_log ERROR (set_faults rest w)).
Proof.
  intros Hf Hin. apply contains_In in Hin.
  unfold UsersDB.get_column_from_username. rewrite Hin. cbn [negb].
  unfold try_except_OperationalError, Sqlite.select_account, bind, Sqlite.execute.
  rewrite Hf. reflexivity.
Qed.

Lemma account_has_username (username : string) (w : world) (r : account) :
  account_of username w = Some r -> acc_username r = VText username.
Proof.
  unfold account_of. intros H. apply find_some in H. destruct H as [_ H].
  unfold Sqlite.matches in H. destruct (acc_username r); try discriminate.
  apply String.eqb_eq in H. subst. reflexivity.
Qed.

(** X4. On a healthy store [get_user_exists] answers [True] exactly for the
    users that have an account row.  When the store is at fault it answers
    [False] for every user, also for one that has an account: the fault is
    logged and read as "not found". *)
Theorem get_user_exists_answers :
  forall (username : string) (w : world),
    (healthy w ->
       exists w',
         UsersDB.get_user_exists username w
         = (Ok (match account_of username w with Some _ => true | None => false end),
            w') /\
         read_only w w') /\
    (unreachable w ->
       exists w',
         UsersDB.get_user_exists username w = (Ok false, w') /\
         read_only w w' /\
         log w' = log w ++ [ERROR]).
Proof.
  intros username w.
  assert (Hin : In "username" UsersDB.ALLOWED_COLUMNS) by (cbn; auto).
  unfold UsersDB.get_user_exists. split.
  - intros Hh. destruct (account_of username w) as [r |] eqn:Ha.
    + rewrite (bind_ok _ _ _ _ _
                 (get_column_run "username" username w r Sqlite.Cusername
                                 Hh Hin eq_refl Ha)).
      cbn. rewrite (account_has_username username w r Ha).
      eexists. split; [reflexivity | repeat split].
    + rewrite (bind_ok _ _ _ _ _
                 (get_column_missing_run "username" username w Hh Hin Ha)).
      eexists. split; [reflexivity | repeat split].
  - intros [rest Hf].
    rewrite (bind_ok _ _ _ _ _
               (get_column_fault_run "username" username w rest Hf Hin)).
    eexists. split; [reflexivity |]. split; [repeat split | reflexivity].
Qed.

(** X5. The account number.  On a healthy store [get_account_number] returns
    the id of the user's row; for a user without an account it raises
    [TypeError] ([int(None)]) and writes nothing. *)
Theorem get_account_number_answers :
  forall (int_of_str : string -> result Z) (username : string) (w : world),
    healthy w ->
    match account_of username w with
    | Some r =>
        UsersDB.get_account_number int_of_str username w = (Ok (acc_id r), w)
    | None =>
        exists w',
          UsersDB.get_account_number int_of_str username w = (Raise TypeError, w') /\
          read_only w w'
    end.
Proof.
  intros int_of_str username w Hh.
  assert (Hin : In "id" UsersDB.ALLOWED_COLUMNS) by (cbn; auto).
  unfold UsersDB.get_account_number.
  destruct (account_of username w) as [r |] eqn:Ha.
  - rewrite (bind_ok _ _ _ _ _
               (get_column_run "id" username w r Sqlite.Cid Hh Hin eq_refl Ha)).
    reflexivity.
  - rewrite (bind_ok _ _ _ _ _
               (get_column_missing_run "id" username w Hh Hin Ha)).
    eexists. split; [reflexivity | repeat split].
Qed.

(** ** Registration, continued *)

Section RegistrationMore.
Context {P : Platform}.

Lemma create_new_user_run (username display_name password : string)
    (current_balance savings_balance : float) (w : world) :
  healthy w ->
  account_of username w = None ->
  let row := mkAccount (Sqlite.next_id (seq_accounts w) (map acc_id (tbl_accounts w)))
                       (VText username) (VText display_name)
                       (VText (hash_bcrypt password))
                       (Sqlite.stored current_balance)
                       (Sqlite.stored savings_balance) in
  UsersDB.create_new_user username display_name password
                          current_balance savings_balance w
  = (Ok tt,
     set_trace (trace w ++ [InsertedAccount row])
       (set_seq_accounts (acc_id row)
          (set_tbl_accounts (tbl_accounts w ++ [row]) w))).
Proof.
  intros Hh Ha row. unfold account_of in Ha. apply find_none_existsb in Ha.
  unfold UsersDB.create_new_user, try_except_OperationalError,
    Sqlite.insert_account, bind.
  rewrite (execute_healthy w Hh). cbn. rewrite Ha. reflexivity.
Qed.

(** X6. Registration and lookup.  On a healthy store, registering a username
    that has no account returns and adds one row whose id is larger than every
    id in the table and than the AUTOINCREMENT counter, and which holds the
    bcrypt hash of the password, never the password itself.  Thereafter
    [get_user_exists] answers [True], [get_password_hash] returns that hash,
    the two balance getters return the starting balances, and the account of
    every other user is what it was.  The starting balances are returned as a
    REAL column holds them: a zero without its sign; a NaN is stored as NULL,
    and its getter raises [TypeError] ([float(None)]). *)
Theorem registration_then_lookup :
  forall (username display_name password : string)
         (current_balance savings_balance : float) (w : world),
    healthy w ->
    account_of username w = None ->
    exists w' row,
      UsersDB.create_new_user username display_name password
                              current_balance savings_balance w = (Ok tt, w') /\
      tbl_accounts w' = tbl_accounts w ++ [row] /\
      row = mkAccount (acc_id row) (VText username) (VText display_name)
                      (VText (hash_bcrypt password))
                      (Sqlite.stored current_balance)
                      (Sqlite.stored savings_balance) /\
      seq_accounts w < acc_id row /\
      Forall (fun r => acc_id r < acc_id row) (tbl_accounts w) /\
      UsersDB.get_user_exists username w' = (Ok true, w') /\
      UsersDB.get_password_hash username w' = (Ok (VText (hash_bcrypt password)), w') /\
      UsersDB.get_current_balance username w'
      = (if is_nan current_balance
         then Raise TypeError else Ok (Sqlite.real current_balance), w') /\
      UsersDB.get_savings_balance username w'
      = (if is_nan savings_balance
         then Raise TypeError else Ok (Sqlite.real savings_balance), w') /\
      (forall other_user,
          other_user <> username ->
          account_of other_user w' = account_of other_user w).
Proof.
  intros username display_name password current_balance savings_balance w Hh Ha.
  pose proof (create_new_user_run username display_name password
                current_balance savings_balance w Hh Ha) as Hrun.
  cbv zeta in Hrun.
  set (row := mkAccount (Sqlite.next_id (seq_accounts w) (map acc_id (tbl_accounts w)))
                        (VText username) (VText display_name)
                        (VText (hash_bcrypt password))
                        (Sqlite.stored current_balance)
                        (Sqlite.stored savings_balance)) in *.
  set (w' := set_trace (trace w ++ [InsertedAccount row])
               (set_seq_accounts (acc_id row)
                  (set_tbl_accounts (tbl_accounts w ++ [row]) w))) in *.
  assert (Hm : Sqlite.matches username row = true).
  { unfold Sqlite.matches. cbn. apply String.eqb_refl. }
  assert (Ha' : account_of username w' = Some row).
  { unfold account_of. cbn. apply find_app_last; assumption. }
  assert (Hh' : healthy w') by exact Hh.
  destruct (next_id_fresh (seq_accounts w) (map acc_id (tbl_accounts w)))
    as [Hseq Hids].
  exists w', row.
  split; [exact Hrun |]. split; [reflexivity |]. split; [reflexivity |].
  split; [exact Hseq |].
  split; [apply Forall_map in Hids; exact Hids |].
  split.
  { unfold UsersDB.get_user_exists.
    rewrite (bind_ok _ _ _ _ _
               (get_column_run "username" username w' row Sqlite.Cusername Hh'
                  ltac:(cbn; auto) eq_refl Ha')).
    reflexivity. }
  split.
  { unfold UsersDB.get_password_hash.
    apply (get_column_run "password_hash" username w' row Sqlite.Cpassword_hash Hh'
             ltac:(cbn; auto 10) eq_refl Ha'). }
  split.
  { rewrite (get_current_balance_cell username w' (Sqlite.stored current_balance) Hh')
      by (unfold balance_of; rewrite Ha'; reflexivity).
    unfold Sqlite.stored. destruct (is_nan current_balance); reflexivity. }
  split.
  { rewrite (get_savings_balance_cell username w' (Sqlite.stored savings_balance) Hh')
      by (unfold balance_of; rewrite Ha'; reflexivity).
    unfold Sqlite.stored. destruct (is_nan savings_balance); reflexivity. }
  intros other_user Hne. unfold account_of. cbn.
  apply find_app_other. unfold Sqlite.matches. cbn.
  apply String.eqb_neq. congruence.
Qed.

(** X7. Registration against a failing store.  When the INSERT meets a store
    fault, [create_new_user] returns normally: the error is logged and not
    raised, and no account is created, also when the username is taken (no
    DuplicateUser is reported then). *)
Theorem registration_swallows_store_fault :
  forall (username display_name password : string)
         (current_balance savings_balance : float) (w : world),
    unreachable w ->
    exists w',
      UsersDB.create_new_user username display_name password
                              current_balance savings_balance w = (Ok tt, w') /\
      read_only w w' /\
      account_of username w' = account_of username w /\
      log w' = log w ++ [ERROR].
Proof.
  intros username display_name password current_balance savings_balance w [rest Hf].
  unfold UsersDB.create_new_user, try_except_OperationalError,
    Sqlite.insert_account, bind, Sqlite.execute.
  rewrite Hf. cbn. eexists. split; [reflexivity |].
  split; [repeat split |]. split; reflexivity.
Qed.

End RegistrationMore.

(** ** Writing a column *)

Section WritingColumns.
Context {P : Platform}.

(** X8. A write for a user without an account is silent.  Whatever the
    allowed column, the faults of the store and the value among [None], the
    [int]s of 64 signed bits, the [float]s and the [str]s (also one the schema
    forbids, such as NULL for the username), [set_column_from_username]
    returns normally and leaves both tables as they were.  An [int] outside 64
    signed bits cannot be bound: the call raises [OverflowError], which the
    method does not catch, and the world is what it was. *)
Theorem set_column_for_missing_user_is_silent :
  forall (column username : string) (new_data : value) (w : world),
    In column UsersDB.ALLOWED_COLUMNS ->
    account_of username w = None ->
    ((forall n, new_data = VInt n -> Sqlite.int64 n = true) ->
       exists w',
         UsersDB.set_column_from_username column username new_data w = (Ok tt, w') /\
         tbl_accounts w' = tbl_accounts w /\
         seq_accounts w' = seq_accounts w /\
         tbl_transactions w' = tbl_transactions w /\
         seq_transactions w' = seq_transactions w) /\
    (forall n,
        new_data = VInt n -> Sqlite.int64 n = false ->
        UsersDB.set_column_from_username column username new_data w
        = (Raise OverflowError, w)).
Proof.
  intros column username new_data w Hin Ha.
  destruct (allowed_resolves column Hin) as [Hc [c Hr]].
  unfold account_of in Ha. apply find_none_existsb in Ha.
  unfold UsersDB.set_column_from_username. rewrite Hc. cbn [negb].
  unfold try_except_OperationalError, Sqlite.update_account, bind, lift,
    Sqlite.execute.
  rewrite Hr. split.
  - intros Hint.
    assert (Hb : exists bound, Sqlite.bind new_data = Ok bound).
    { destruct new_data as [| n | x | t]; cbn; eauto.
      rewrite (Hint n eq_refl). eauto. }
    destruct Hb as [bound Hb]. rewrite Hb.
    destruct (faults w) as [| [|] rest]; cbn; try rewrite Ha; cbn;
      eexists; (split; [reflexivity | repeat split]).
  - intros n Hn Hint. subst new_data. cbn [Sqlite.bind]. rewrite Hint.
    reflexivity.
Qed.

Lemma set_column_run (column username : string) (c : Sqlite.column)
    (new_data bound : value) (w : world) :
  healthy w ->
  In column UsersDB.ALLOWED_COLUMNS ->
  Sqlite.resolve column = Some c ->
  account_of username w <> None ->
  Sqlite.bind new_data = Ok bound ->
  Sqlite.admissible c (Sqlite.affinity c bound) = true ->
  Sqlite.unique c = false ->
  UsersDB.set_column_from_username column username new_data w
  = (Ok tt, after_update column c username (Sqlite.affinity c bound) w).
Proof.
  intros Hh Hin Hr Ha Hb Hadm Hun. apply contains_In in Hin.
  unfold account_of in Ha.
  destruct (find (Sqlite.matches username) (tbl_accounts w)) as [r |] eqn:E;
    [| contradiction].
  apply find_existsb in E.
  unfold UsersDB.set_column_from_username. rewrite Hin. cbn [negb].
  unfold try_except_OperationalError, Sqlite.update_account, bind, lift.
  rewrite Hr, Hb, (execute_healthy w Hh). cbn. rewrite E. cbn.
  unfold Sqlite.conflicts. rewrite Hadm, Hun. reflexivity.
Qed.

(** X9. Write, then read.  On a healthy store, for a user with an account, a
    text written to [display_name] or [password_hash] and a number written to
    one of the balance columns is what the next read of that column returns
    (a number as a REAL column holds it: a zero without its sign, and a NaN as
    NULL, read as [None]), and the read of every other allowed column returns
    what it returned before the write. *)
Theorem set_then_get_column :
  forall (column username : string) (new_data : value) (w : world),
    healthy w ->
    account_of username w <> None ->
    fits column new_data ->
    exists w',
      UsersDB.set_column_from_username column username new_data w = (Ok tt, w') /\
      UsersDB.get_column_from_username column username w'
      = (Ok (match new_data with VReal x => Sqlite.stored x | _ => new_data end),
         w') /\
      forall other_column,
        In other_column UsersDB.ALLOWED_COLUMNS ->
        other_column <> column ->
        fst (UsersDB.get_column_from_username other_column username w')
        = fst (UsersDB.get_column_from_username other_column username w).
Proof.
  intros column username new_data w Hh Ha Hfit.
  destruct (account_of username w) as [r |] eqn:Er; [| contradiction].
  set (v := match new_data with VReal x => Sqlite.stored x | _ => new_data end).
  assert (Hcases :
    exists c bound,
      In column UsersDB.ALLOWED_COLUMNS /\
      Sqlite.resolve column = Some c /\
      Sqlite.bind new_data = Ok bound /\
      Sqlite.affinity c bound = v /\
      Sqlite.admissible c v = true /\
      Sqlite.unique c = false /\
      (forall a, acc_username (Sqlite.store c v a) = acc_username a) /\
      Sqlite.cell c (Sqlite.store c v r) = v /\
      (forall other_column c',
          Sqlite.resolve other_column = Some c' -> other_column <> column ->
          Sqlite.cell c' (Sqlite.store c v r) = Sqlite.cell c' r)).
  { destruct Hfit as [[[Hc | Hc] [x Hx]] | [[Hc | Hc] [x Hx]]]; subst;
      subst v; cbn [Sqlite.bind];
      try (unfold Sqlite.stored; destruct (is_nan x));
      eexists; eexists; (split; [cbn; auto 10 |]); (split; [reflexivity |]);
      repeat (split; [reflexivity |]);
      intros other_column c' Hres Hne; unfold Sqlite.resolve in Hres;
      repeat match type of Hres with
             | (if String.eqb ?a ?b then _ else _) = _ =>
                 destruct (String.eqb_spec a b);
                 [inversion Hres; subst; try reflexivity; congruence |]
             end;
      discriminate. }
  destruct Hcases
    as (c & bound & Hin & Hr & Hb & Haff & Hadm & Hun & Hname & Hcell & Hother).
  assert (Ha0 : account_of username w <> None) by (rewrite Er; discriminate).
  pose proof (set_column_run column username c new_data bound w Hh Hin Hr Ha0 Hb)
    as Hset.
  rewrite Haff in Hset. specialize (Hset Hadm Hun).
  assert (Ha' : account_of username (after_update column c username v w)
                = Some (Sqlite.store c v r)).
  { rewrite account_of_after_update by exact Hname. rewrite Er. reflexivity. }
  set (w' := after_update column c username v w) in *.
  assert (Hh' : healthy w') by exact Hh.
  exists w'. split; [exact Hset |]. split.
  - rewrite <- Hcell at 1.
    apply (get_column_run column username w' _ c Hh' Hin Hr Ha').
  - intros other_column Hoin Hne.
    destruct (allowed_resolves other_column Hoin) as [_ [c' Hr']].
    rewrite (get_column_run other_column username w' _ c' Hh' Hoin Hr' Ha').
    rewrite (get_column_run other_column username w _ c' Hh Hoin Hr' Er).
    cbn. rewrite (Hother other_column c' Hr' Hne). reflexivity.
Qed.

End WritingColumns.

(** ** Store faults in the middle of an operation *)

Lemma execute_ok (w : world) (rest : list bool) :
  faults w = false :: rest -> Sqlite.execute w = (Ok tt, set_faults rest w).
Proof. unfold Sqlite.execute. intros H. rewrite H. reflexivity. Qed.

Lemma execute_fault (w : world) (rest : list bool) :
  faults w = true :: rest ->
  Sqlite.execute w = (Raise OperationalError, set_faults rest w).
Proof. unfold Sqlite.execute. intros H. rewrite H. reflexivity. Qed.

Lemma log_transaction_next (username kind : string) (amount : float) (label : string)
    (w : world) (rest : list bool) :
  (0 <? amount)%float = true ->
  faults w = false :: rest ->
  TransactionsDB.log_transaction username kind amount label w
  = (Ok tt, after_append username kind amount label (set_faults rest w)).
Proof.
  intros Hpos Hf. unfold TransactionsDB.log_transaction, try_except_OperationalError,
    Sqlite.insert_transaction, bind.
  rewrite (execute_ok w rest Hf), (positive_not_nan amount Hpos),
    (real_positive amount Hpos).
  reflexivity.
Qed.

Lemma log_transaction_fault (username kind : string) (amount : float) (label : string)
    (w : world) (rest : list bool) :
  faults w = true :: rest ->
  TransactionsDB.log_transaction username kind amount label w
  = (Ok tt, after_log ERROR (set_faults rest w)).
Proof.
  intros Hf. unfold TransactionsDB.log_transaction, try_except_OperationalError,
    Sqlite.insert_transaction, bind.
  rewrite (execute_fault w rest Hf). reflexivity.
Qed.

Section FaultsInTheMiddle.
Context {P : Platform}.

Lemma read_balance_next (selector username : string) (w : world)
    (rest : list bool) (old : float) :
  faults w = false :: rest ->
  balance_of selector username w = Some (VReal old) ->
  read_balance selector username w = (Ok old, set_faults rest w).
Proof.
  intros Hf Hb. unfold balance_of, account_of in Hb.
  unfold read_balance, UsersDB.get_current_balance, UsersDB.get_savings_balance,
    UsersDB.get_column_from_username.
  destruct (String.eqb selector "current");
    cbn [contains UsersDB.ALLOWED_COLUMNS existsb String.eqb Ascii.eqb Bool.eqb
         orb andb negb];
    unfold try_except_OperationalError, Sqlite.select_account, bind;
    rewrite (execute_ok w rest Hf); cbn;
    (destruct (find (Sqlite.matches username) (tbl_accounts w)) as [r |];
     [| discriminate]);
    cbn in *; injection Hb as Hb; rewrite Hb; reflexivity.
Qed.

Lemma read_balance_fault (selector username : string) (w : world)
    (rest : list bool) :
  faults w = true :: rest ->
  read_balance selector username w
  = (Raise TypeError, after_log ERROR (set_faults rest w)).
Proof.
  intros Hf.
  unfold read_balance, UsersDB.get_current_balance, UsersDB.get_savings_balance.
  destruct (String.eqb selector "current").
  - rewrite (bind_ok _ _ _ _ _
               (get_column_fault_run "current_balance" username w rest Hf
                  ltac:(cbn; auto 10))).
    reflexivity.
  - rewrite (bind_ok _ _ _ _ _
               (get_column_fault_run "savings_balance" username w rest Hf
                  ltac:(cbn; auto 10))).
    reflexivity.
Qed.

Lemma set_balance_next (column username : string) (c : Sqlite.column) (x : float)
    (w : world) (rest : list bool) :
  (column = "current_balance" /\ c = Sqlite.Ccurrent_balance) \/
  (column = "savings_balance" /\ c = Sqlite.Csavings_balance) ->
  faults w = false :: rest ->
  account_of username w <> None ->
  UsersDB.set_column_from_username column username (VReal x) w
  = (Ok tt, after_update column c username (Sqlite.stored x) (set_faults rest w)).
Proof.
  intros Hc Hf Ha. unfold account_of in Ha.
  destruct (find (Sqlite.matches username) (tbl_accounts w)) as [r |] eqn:E;
    [| contradiction].
  apply find_existsb in E.
  unfold UsersDB.set_column_from_username.
  destruct Hc as [[-> ->] | [-> ->]];
    cbn [contains UsersDB.ALLOWED_COLUMNS existsb String.eqb Ascii.eqb Bool.eqb
         orb andb negb];
    unfold try_except_OperationalError, Sqlite.update_account, bind, lift;
    cbn [Sqlite.resolve String.eqb Ascii.eqb Bool.eqb Sqlite.bind];
    rewrite (execute_ok w rest Hf); unfold gets; cbn [tbl_accounts set_faults];
    rewrite E;
    [rewrite affinity_stored_current | rewrite affinity_stored_savings];
    unfold Sqlite.stored; destruct (is_nan x); reflexivity.
Qed.

Lemma set_column_fault (column username : string) (x : float) (w : world)
    (rest : list bool) :
  In column UsersDB.ALLOWED_COLUMNS ->
  faults w = true :: rest ->
  UsersDB.set_column_from_username column username (VReal x) w
  = (Ok tt, after_log ERROR (set_faults rest w)).
Proof.
  intros Hin Hf. destruct (allowed_resolves column Hin) as [Hc [c Hr]].
  unfold UsersDB.set_column_from_username. rewrite Hc. cbn [negb].
  unfold try_except_OperationalError, Sqlite.update_account, bind, lift.
  rewrite Hr. cbn [Sqlite.bind].
  rewrite (execute_fault w rest Hf). reflexivity.
Qed.

Lemma add_balance_read (selector username : string) (delta : float) :
  add_balance selector username delta
  = bind (read_balance selector username)
         (fun previous_balance =>
            UsersDB.set_column_from_username (fst (balance_column selector)) username
              (VReal (previous_balance + delta))).
Proof.
  unfold add_balance, read_balance, balance_column.
  destruct (String.eqb selector "current"); reflexivity.
Qed.

Lemma balance_column_cases (selector : string) :
  (fst (balance_column selector) = "current_balance" /\
   snd (balance_column selector) = Sqlite.Ccurrent_balance) \/
  (fst (balance_column selector) = "savings_balance" /\
   snd (balance_column selector) = Sqlite.Csavings_balance).
Proof.
  unfold balance_column. destruct (String.eqb selector "current"); auto.
Qed.

(** The balance is read and written back: two statements, both answered. *)
Lemma add_balance_next (selector username : string) (delta old : float) (w : world)
    (rest : list bool) :
  faults w = false :: false :: rest ->
  balance_of selector username w = Some (VReal old) ->
  add_balance selector username delta w
  = (Ok tt,
     after_update (fst (balance_column selector)) (snd (balance_column selector))
                  username (Sqlite.stored (old + delta))
                  (set_faults rest (set_faults (false :: rest) w))).
Proof.
  intros Hf Hb. rewrite add_balance_read.
  rewrite (bind_ok _ _ _ _ _ (read_balance_next selector username w _ old Hf Hb)).
  apply set_balance_next.
  - apply balance_column_cases.
  - reflexivity.
  - exact (balance_account _ _ _ _ Hb).
Qed.

(** The balance is read, the write meets a store fault: nothing is written
    and nothing is raised. *)
Lemma add_balance_lost (selector username : string) (delta old : float) (w : world)
    (rest : list bool) :
  faults w = false :: true :: rest ->
  balance_of selector username w = Some (VReal old) ->
  add_balance selector username delta w
  = (Ok tt, after_log ERROR (set_faults rest (set_faults (true :: rest) w))).
Proof.
  intros Hf Hb. rewrite add_balance_read.
  rewrite (bind_ok _ _ _ _ _ (read_balance_next selector username w _ old Hf Hb)).
  apply set_column_fault; [| reflexivity].
  destruct (balance_column_cases selector) as [[-> _] | [-> _]]; cbn; auto 10.
Qed.

Lemma balance_after_update (selector username : string) (v : value) (w : world) :
  account_of username w <> None ->
  balance_of selector username
    (after_update (fst (balance_column selector)) (snd (balance_column selector))
                  username v w)
  = Some v.
Proof.
  intros Ha. unfold balance_of, balance_column.
  destruct (String.eqb selector "current"); cbn [fst snd];
    rewrite account_of_after_update by reflexivity;
    (destruct (account_of username w); [reflexivity | contradiction]).
Qed.

End FaultsInTheMiddle.

Section InterruptedOperations.
Context {P : Platform}.

Lemma deposit_body (username selector : string) (amount : float) :
  (0 <? amount)%float = true -> valid_selector selector ->
  Actions.deposit_into_account username amount selector
  = bind (add_balance selector username amount)
      (fun _ => bind (TransactionsDB.log_transaction username "deposit" amount selector)
         (fun _ => logger INFO)).
Proof.
  intros Hpos Hsel. unfold Actions.deposit_into_account.
  rewrite (positive amount Hpos). destruct Hsel; subst; reflexivity.
Qed.

Lemma withdraw_body (username selector : string) (amount : float) :
  (0 <? amount)%float = true -> valid_selector selector ->
  Actions.withdraw_from_account username amount selector
  = bind (add_balance selector username (- amount))
      (fun _ => bind (TransactionsDB.log_transaction username "withdraw" amount selector)
         (fun _ => logger INFO)).
Proof.
  intros Hpos Hsel. unfold Actions.withdraw_from_account.
  rewrite (positive amount Hpos). destruct Hsel; subst; reflexivity.
Qed.

(** X10. The ledger append fails after the balance was written.  When the
    read and the write of the balance are answered and the INSERT into the
    ledger meets a store fault, deposit and withdraw return normally, the
    balance change stays (the balance is what SQLite stores for the binary64
    sum of the old balance and the amount, or its negation) and no ledger
    record exists for it: the fault is only logged. *)
Theorem balance_change_survives_ledger_fault :
  forall (username selector : string) (amount old : float) (w : world)
         (rest : list bool),
    (0 <? amount)%float = true ->
    valid_selector selector ->
    faults w = false :: false :: true :: rest ->
    balance_of selector username w = Some (VReal old) ->
    (exists w',
        Actions.deposit_into_account username amount selector w = (Ok tt, w') /\
        balance_of selector username w' = Some (Sqlite.stored (old + amount)) /\
        tbl_transactions w' = tbl_transactions w /\
        log w' = log w ++ [ERROR; INFO]) /\
    (exists w',
        Actions.withdraw_from_account username amount selector w = (Ok tt, w') /\
        balance_of selector username w' = Some (Sqlite.stored (old + - amount)) /\
        tbl_transactions w' = tbl_transactions w /\
        log w' = log w ++ [ERROR; INFO]).
Proof.
  intros username selector amount old w rest Hpos Hsel Hf Hb.
  rewrite (deposit_body username selector amount Hpos Hsel).
  rewrite (withdraw_body username selector amount Hpos Hsel).
  split.
  - rewrite (bind_ok _ _ _ _ _
               (add_balance_next selector username amount old w _ Hf Hb)).
    erewrite bind_ok by (apply log_transaction_fault; reflexivity).
    eexists. split; [reflexivity |]. split.
    + apply (balance_after_update selector username _ w).
      exact (balance_account _ _ _ _ Hb).
    + split; [reflexivity |]. cbn. rewrite <- app_assoc. reflexivity.
  - rewrite (bind_ok _ _ _ _ _
               (add_balance_next selector username (- amount) old w _ Hf Hb)).
    erewrite bind_ok by (apply log_transaction_fault; reflexivity).
    eexists. split; [reflexivity |]. split.
    + apply (balance_after_update selector username _ w).
      exact (balance_account _ _ _ _ Hb).
    + split; [reflexivity |]. cbn. rewrite <- app_assoc. reflexivity.
Qed.

(** X11. The balance write fails and the ledger says otherwise.  When the
    UPDATE of the balance meets a store fault and the store answers again
    afterwards, deposit returns normally, the balance is what it was, and the
    ledger gains a record of the deposit that did not happen. *)
Theorem ledger_records_a_lost_write :
  forall (username selector : string) (amount old : float) (w : world)
         (rest : list bool),
    (0 <? amount)%float = true ->
    valid_selector selector ->
    faults w = false :: true :: rest ->
    (forall later, rest <> true :: later) ->
    balance_of selector username w = Some (VReal old) ->
    exists w',
      Actions.deposit_into_account username amount selector w = (Ok tt, w') /\
      balance_of selector username w' = Some (VReal old) /\
      balance_of (other selector) username w' = balance_of (other selector) username w /\
      tbl_transactions w'
      = tbl_transactions w
        ++ [mkTransaction (next_transaction_id w) username "deposit" amount
                          selector (clock w)].
Proof.
  intros username selector amount old w rest Hpos Hsel Hf Hrest Hb.
  rewrite (deposit_body username selector amount Hpos Hsel).
  rewrite (bind_ok _ _ _ _ _
             (add_balance_lost selector username amount old w _ Hf Hb)).
  destruct rest as [| [|] later].
  - erewrite bind_ok by (apply log_positive_run; [exact Hpos | reflexivity]).
    eexists. split; [reflexivity |]. split; [exact Hb |].
    split; reflexivity.
  - exfalso. exact (Hrest later eq_refl).
  - erewrite bind_ok by (apply log_transaction_next; [exact Hpos | reflexivity]).
    eexists. split; [reflexivity |]. split; [exact Hb |].
    split; reflexivity.
Qed.

(** X12. A transfer interrupted between its two balance updates.  When the
    first balance update is done and the read of the second balance meets a
    store fault, the transfer raises [TypeError] ([float(None)]): the current
    balance has been debited (source "current") or credited (source
    "savings") and is what SQLite stores for the binary64 sum of the old
    balance and the negated amount, or the amount; the savings balance is what
    it was, and the ledger has no record of it. *)
Theorem transfer_interrupted_halfway :
  forall (username : string) (amount cur sav : float) (w : world) (rest : list bool),
    (0 <? amount)%float = true ->
    faults w = false :: false :: true :: rest ->
    balance_of "current" username w = Some (VReal cur) ->
    balance_of "savings" username w = Some (VReal sav) ->
    (exists w',
        Actions.transfer_between_accounts username amount "current" w
          = (Raise TypeError, w') /\
        balance_of "current" username w' = Some (Sqlite.stored (cur + - amount)) /\
        balance_of "savings" username w' = Some (VReal sav) /\
        tbl_transactions w' = tbl_transactions w) /\
    (exists w',
        Actions.transfer_between_accounts username amount "savings" w
          = (Raise TypeError, w') /\
        balance_of "current" username w' = Some (Sqlite.stored (cur + amount)) /\
        balance_of "savings" username w' = Some (VReal sav) /\
        tbl_transactions w' = tbl_transactions w).
Proof.
  intros username amount cur sav w rest Hpos Hf Hc Hs.
  pose proof (balance_account _ _ _ _ Hc) as Ha.
  unfold Actions.transfer_between_accounts.
  rewrite (positive amount Hpos).
  cbn [contains existsb String.eqb Ascii.eqb Bool.eqb orb andb negb].
  split.
  - change (UsersDB.add_current_balance username (- amount))
      with (add_balance "current" username (- amount)).
    rewrite (bind_ok _ _ _ _ _
               (add_balance_next "current" username (- amount) cur w _ Hf Hc)).
    unfold UsersDB.add_savings_balance.
    erewrite (bind_raise (bind _ _));
      [| apply bind_raise;
         apply (read_balance_fault "savings" username _ rest); reflexivity].
    eexists. split; [reflexivity |]. split.
    + apply (balance_after_update "current" username _ w). exact Ha.
    + split; [| reflexivity].
      etransitivity; [apply savings_after_update_current | exact Hs].
  - change (UsersDB.add_current_balance username amount)
      with (add_balance "current" username amount).
    rewrite (bind_ok _ _ _ _ _
               (add_balance_next "current" username amount cur w _ Hf Hc)).
    unfold UsersDB.add_savings_balance.
    erewrite (bind_raise (bind _ _));
      [| apply bind_raise;
         apply (read_balance_fault "savings" username _ rest); reflexivity].
    eexists. split; [reflexivity |]. split.
    + apply (balance_after_update "current" username _ w). exact Ha.
    + split; [| reflexivity].
      etransitivity; [apply savings_after_update_current | exact Hs].
Qed.

End InterruptedOperations.

(** ** The ledger: appends and the query window *)

Lemma get_transactions_run (username : string) (w : world) :
  healthy w ->
  TransactionsDB.get_transactions username w
  = (Ok (Sqlite.order_by_timestamp_desc
           (filter (Sqlite.selected username (clock w)) (tbl_transactions w))),
     w).
Proof.
  intros Hh. unfold TransactionsDB.get_transactions, try_except_OperationalError,
    Sqlite.select_transactions, bind.
  rewrite (execute_healthy w Hh). reflexivity.
Qed.

(** X13. Appending is not idempotent.  On a healthy store two calls of
    [log_transaction] with the same arguments, any time apart, append two
    records, in call order, that differ in their id: the second id is larger
    than the first, and the first is larger than every id already in the
    ledger.  The amount of both records is the amount as a REAL column holds
    it (a zero without its sign).  The one amount the ledger does not take is
    NaN: it is bound as NULL, the NOT NULL constraint of the column fails, and
    the call raises [sqlite3.IntegrityError] without appending. *)
Theorem log_transaction_twice :
  forall (username kind label : string) (amount : float) (seconds : Z) (w : world),
    healthy w ->
    if is_nan amount
    then
      TransactionsDB.log_transaction username kind amount label w
      = (Raise IntegrityError, w)
    else
      exists w1 w2 id1 id2,
        TransactionsDB.log_transaction username kind amount label w = (Ok tt, w1) /\
        TransactionsDB.log_transaction username kind amount label (tick seconds w1)
          = (Ok tt, w2) /\
        tbl_transactions w2
        = tbl_transactions w
          ++ [mkTransaction id1 username kind (Sqlite.real amount) label (clock w);
              mkTransaction id2 username kind (Sqlite.real amount) label
                            (clock w + seconds)] /\
        id1 < id2 /\
        Forall (fun t => txn_id t < id1) (tbl_transactions w).
Proof.
  intros username kind label amount seconds w Hh.
  destruct (is_nan amount) eqn:Hn;
    [exact (log_transaction_nan username kind amount label w Hn Hh) |].
  pose proof (log_transaction_run username kind amount label w Hn Hh) as H1.
  pose proof (log_transaction_run username kind amount label
                (tick seconds
                   (after_append username kind (Sqlite.real amount) label w))
                Hn Hh) as H2.
  destruct (next_id_fresh (seq_transactions w) (map txn_id (tbl_transactions w)))
    as [_ Hids].
  destruct (next_id_fresh
              (seq_transactions
                 (after_append username kind (Sqlite.real amount) label w))
              (map txn_id
                 (tbl_transactions
                    (after_append username kind (Sqlite.real amount) label w))))
    as [Hseq _].
  do 4 eexists. split; [exact H1 |]. split; [exact H2 |].
  split; [cbn; rewrite <- app_assoc; reflexivity |].
  split; [exact Hseq |].
  apply Forall_map in Hids. exact Hids.
Qed.

(** X14. How long a record is listed.  A record appended by
    [log_transaction] on a healthy store is returned by [get_transactions]
    for its user whenever the query runs at most seven days later, and is no
    longer returned when the query runs eight days later or more.  Every
    amount but NaN is appended, as a REAL column holds it (a zero without its
    sign); for NaN the call raises [sqlite3.IntegrityError] and there is no
    record. *)
Theorem appended_record_is_listed :
  forall (username kind label : string) (amount : float) (w : world),
    healthy w ->
    if is_nan amount
    then
      TransactionsDB.log_transaction username kind amount label w
      = (Raise IntegrityError, w)
    else
      exists w' record,
        TransactionsDB.log_transaction username kind amount label w = (Ok tt, w') /\
        record = mkTransaction (next_transaction_id w) username kind
                               (Sqlite.real amount) label (clock w) /\
        forall seconds,
          exists rows,
            TransactionsDB.get_transactions username (tick seconds w')
            = (Ok rows, tick seconds w') /\
            (0 <= seconds <= 7 * 86400 -> In record rows) /\
            (8 * 86400 <= seconds -> ~ In record rows).
Proof.
  intros username kind label amount w Hh.
  destruct (is_nan amount) eqn:Hn;
    [exact (log_transaction_nan username kind amount label w Hn Hh) |].
  exists (after_append username kind (Sqlite.real amount) label w).
  eexists. split; [exact (log_transaction_run username kind amount label w Hn Hh) |].
  split; [reflexivity |].
  intros seconds. eexists. split.
  { apply get_transactions_run. exact Hh. }
  pose proof (Z.mod_pos_bound (clock w + seconds) 86400 ltac:(lia)) as Hmod.
  split.
  - intros Hs.
    apply (Permutation_in _
             (Permutation_sym (order_by_timestamp_desc_perm _))).
    apply filter_In. split.
    + cbn. apply in_or_app. right. left. reflexivity.
    + apply selected_iff. split; [reflexivity |].
      rewrite date_now_minus_7_days_midnight. cbn. lia.
  - intros Hs Hin.
    apply (Permutation_in _ (order_by_timestamp_desc_perm _)) in Hin.
    apply filter_In in Hin. destruct Hin as [_ Hsel].
    apply selected_iff in Hsel. destruct Hsel as [_ Hsel].
    rewrite date_now_minus_7_days_midnight in Hsel. cbn in Hsel. lia.
Qed.

(** ** A fault at the first statement *)

Section FaultAtBalanceRead.
Context {P : Platform}.

(** X15. A store fault at the balance read surfaces as [TypeError].  With a
    positive amount and a valid selector, when the first statement meets a
    store fault, deposit, withdraw and transfer raise [TypeError] (the fault
    is logged, the read answers [None], and [float(None)] fails), also for a
    user whose account is in order; nothing has been written. *)
Theorem store_fault_at_balance_read :
  forall (username selector : string) (amount : float) (w : world),
    (0 <? amount)%float = true ->
    valid_selector selector ->
    unreachable w ->
    exists w',
      Actions.deposit_into_account username amount selector w
        = (Raise TypeError, w') /\
      Actions.withdraw_from_account username amount selector w
        = (Raise TypeError, w') /\
      Actions.transfer_between_accounts username amount selector w
        = (Raise TypeError, w') /\
      read_only w w' /\
      log w' = log w ++ [ERROR].
Proof.
  intros username selector amount w Hpos Hsel [rest Hf].
  rewrite (deposit_body username selector amount Hpos Hsel).
  rewrite (withdraw_body username selector amount Hpos Hsel).
  rewrite !add_balance_read.
  unfold Actions.transfer_between_accounts. rewrite (positive amount Hpos).
  pose proof (read_balance_fault selector username w rest Hf) as Hsel_read.
  pose proof (read_balance_fault "current" username w rest Hf) as Hcur_read.
  exists (after_log ERROR (set_faults rest w)).
  split; [apply bind_raise; apply bind_raise; exact Hsel_read |].
  split; [apply bind_raise; apply bind_raise; exact Hsel_read |].
  split.
  - destruct Hsel; subst selector;
      cbn [contains existsb String.eqb Ascii.eqb Bool.eqb orb andb negb];
      apply bind_raise; apply bind_raise; exact Hcur_read.
  - split; [repeat split | reflexivity].
Qed.

End FaultAtBalanceRead.

(** ** One account per username *)

Lemma filter_app_last {A} (f : A -> bool) (l : list A) (x : A) :
  filter f (l ++ [x]) = filter f l ++ (if f x then [x] else []).
Proof. rewrite filter_app. reflexivity. Qed.

Lemma filter_existsb_false {A} (f : A -> bool) (l : list A) :
  existsb f l = false -> filter f l = [].
Proof.
  induction l as [| a l IH]; [reflexivity |]. cbn.
  destruct (f a); [discriminate | exact IH].
Qed.

Lemma matches_exclusive (u1 u2 : string) (r : account) :
  Sqlite.matches u1 r = true -> Sqlite.matches u2 r = true -> u1 = u2.
Proof.
  unfold Sqlite.matches. destruct (acc_username r); try discriminate.
  intros H1 H2. apply String.eqb_eq in H1, H2. congruence.
Qed.

Lemma only_balances_of_filter (username looked_up : string) (w w' : world) :
  only_balances_of username w w' ->
  length (filter (Sqlite.matches looked_up) (tbl_accounts w'))
  = length (filter (Sqlite.matches looked_up) (tbl_accounts w)).
Proof.
  unfold only_balances_of. intros H.
  induction H as [| r r' l l' Hr H IH]; [reflexivity |].
  cbn. destruct Hr as (_ & Hu & _).
  rewrite (matches_same_username looked_up r r' Hu).
  destruct (Sqlite.matches looked_up r); cbn; rewrite IH; reflexivity.
Qed.

Section OneAccountPerUsername.
Context {P : Platform}.

Lemma insert_account_unique (username display_name password_hash : string)
    (current_balance savings_balance : float) :
  preserves (fun w w' => unique_usernames w -> unique_usernames w')
    (Sqlite.insert_account username display_name password_hash
                           current_balance savings_balance).
Proof.
  intros w r w' E Hu.
  unfold Sqlite.insert_account, bind, Sqlite.execute, gets, modify, raise,
    Sqlite.commit in E.
  destruct (faults w) as [| [|] rest]; cbn in E;
    try (destruct (existsb (Sqlite.matches username) (tbl_accounts w)) eqn:Ex;
         cbn in E);
    inversion E; subst; try exact Hu;
    intros looked_up; cbn; rewrite filter_app_last, length_app;
    (destruct (Sqlite.matches looked_up _) eqn:Em; cbn;
     [| specialize (Hu looked_up); lia]);
    assert (looked_up = username)
      by (apply (matches_exclusive _ _ _ Em); unfold Sqlite.matches; cbn;
          apply String.eqb_refl);
    subst looked_up; rewrite (filter_existsb_false _ _ Ex); cbn; lia.
Qed.

(** X16. One account per username.  If no username has two account rows,
    that is still so after [create_new_user] and after deposit, withdraw and
    transfer, whatever their arguments, the faults of the store and their
    outcome. *)
Theorem usernames_stay_unique :
  forall (username display_name password selector : string)
         (amount current_balance savings_balance : float),
    let kept w w' := unique_usernames w -> unique_usernames w' in
    preserves kept
      (UsersDB.create_new_user username display_name password
                               current_balance savings_balance) /\
    preserves kept (Actions.deposit_into_account username amount selector) /\
    preserves kept (Actions.withdraw_from_account username amount selector) /\
    preserves kept (Actions.transfer_between_accounts username amount selector).
Proof.
  intros username display_name password selector amount current_balance
    savings_balance kept.
  assert (Hk : forall w w', only_balances_of username w w' -> kept w w').
  { intros w w' H Hu looked_up.
    rewrite (only_balances_of_filter username looked_up w w' H). apply Hu. }
  split.
  - intros w r w' E. unfold UsersDB.create_new_user, try_except_OperationalError in E.
    destruct (Sqlite.insert_account username display_name (hash_bcrypt password)
                current_balance savings_balance w) as [[[] | e] w1] eqn:Ei.
    + inversion E; subst. exact (insert_account_unique _ _ _ _ _ _ _ _ Ei).
    + pose proof (insert_account_unique _ _ _ _ _ _ _ _ Ei) as H1.
      destruct e; inversion E; subst; exact H1.
  - destruct (actions_keep_rows username selector amount) as (Hd & Hw & Ht).
    split; [| split]; eapply preserves_impl; eauto.
Qed.

End OneAccountPerUsername.

(** ** The further properties at concrete inputs *)

Lemma get_account_number_answers_witness :
  UsersDB.get_account_number sample_int_of_str "alice" bank = (Ok 1, bank) /\
  exists w',
    UsersDB.get_account_number sample_int_of_str "bob" bank = (Raise TypeError, w') /\
    read_only bank w'.
Proof.
  split.
  - apply (get_account_number_answers sample_int_of_str "alice" bank). reflexivity.
  - apply (get_account_number_answers sample_int_of_str "bob" bank). reflexivity.
Defined.

Lemma registration_then_lookup_witness :
  exists w' row,
    UsersDB.create_new_user (P := sample_platform) "bob" "Bob" "password123" 10 20 bank
      = (Ok tt, w') /\
    tbl_accounts w' = tbl_accounts bank ++ [row] /\
    row = mkAccount (acc_id row) (VText "bob") (VText "Bob")
                    (VText (hash_bcrypt (Platform := sample_platform) "password123"))
                    (VReal 10) (VReal 20) /\
    seq_accounts bank < acc_id row /\
    Forall (fun r => acc_id r < acc_id row) (tbl_accounts bank) /\
    UsersDB.get_user_exists "bob" w' = (Ok true, w') /\
    UsersDB.get_password_hash "bob" w'
      = (Ok (VText (hash_bcrypt (Platform := sample_platform) "password123")), w') /\
    UsersDB.get_current_balance (P := sample_platform) "bob" w' = (Ok 10%float, w') /\
    UsersDB.get_savings_balance (P := sample_platform) "bob" w' = (Ok 20%float, w') /\
    (forall other_user,
        other_user <> "bob" ->
        account_of other_user w' = account_of other_user bank).
Proof.
  apply (registration_then_lookup (P := sample_platform)
           "bob" "Bob" "password123" 10 20 bank); reflexivity.
Defined.

Lemma registration_swallows_store_fault_witness :
  exists w',
    UsersDB.create_new_user (P := sample_platform) "alice" "Impostor" "password123"
                            0 0 (faulty_bank [true])
      = (Ok tt, w') /\
    read_only (faulty_bank [true]) w' /\
    account_of "alice" w' = account_of "alice" (faulty_bank [true]) /\
    log w' = log (faulty_bank [true]) ++ [ERROR].
Proof.
  apply (registration_swallows_store_fault (P := sample_platform)
           "alice" "Impostor" "password123" 0 0 (faulty_bank [true])).
  exists []. reflexivity.
Defined.

Lemma set_column_for_missing_user_is_silent_witness :
  (exists w',
      UsersDB.set_column_from_username (P := sample_platform) "username" "bob" VNull bank
        = (Ok tt, w') /\
      tbl_accounts w' = tbl_accounts bank /\
      seq_accounts w' = seq_accounts bank /\
      tbl_transactions w' = tbl_transactions bank /\
      seq_transactions w' = seq_transactions bank) /\
  UsersDB.set_column_from_username (P := sample_platform) "current_balance" "bob"
                                   (VInt (2 ^ 63)) bank
  = (Raise OverflowError, bank).
Proof.
  split.
  - apply (set_column_for_missing_user_is_silent (P := sample_platform)
             "username" "bob" VNull bank).
    + right. left. reflexivity.
    + reflexivity.
    + intros n H. discriminate H.
  - apply (set_column_for_missing_user_is_silent (P := sample_platform)
             "current_balance" "bob" (VInt (2 ^ 63)) bank) with (n := 2 ^ 63).
    + cbn. auto 10.
    + reflexivity.
    + reflexivity.
    + reflexivity.
Defined.

Lemma set_then_get_column_witness :
  exists w',
    UsersDB.set_column_from_username (P := sample_platform) "display_name" "alice"
                                     (VText "Alice B.") bank
      = (Ok tt, w') /\
    UsersDB.get_column_from_username "display_name" "alice" w'
      = (Ok (VText "Alice B."), w') /\
    forall other_column,
      In other_column UsersDB.ALLOWED_COLUMNS ->
      other_column <> "display_name" ->
      fst (UsersDB.get_column_from_username other_column "alice" w')
      = fst (UsersDB.get_column_from_username other_column "alice" bank).
Proof.
  apply (set_then_get_column (P := sample_platform)
           "display_name" "alice" (VText "Alice B.") bank).
  - reflexivity.
  - discriminate.
  - left. split; [left; reflexivity | exists "Alice B."; reflexivity].
Defined.

Lemma balance_change_survives_ledger_fault_witness :
  (exists w',
      Actions.deposit_into_account (P := sample_platform) "alice" 25 "current"
                                   (faulty_bank [false; false; true])
        = (Ok tt, w') /\
      balance_of "current" "alice" w' = Some (VReal 125) /\
      tbl_transactions w' = tbl_transactions (faulty_bank [false; false; true]) /\
      log w' = log (faulty_bank [false; false; true]) ++ [ERROR; INFO]) /\
  (exists w',
      Actions.withdraw_from_account (P := sample_platform) "alice" 25 "current"
                                    (faulty_bank [false; false; true])
        = (Ok tt, w') /\
      balance_of "current" "alice" w' = Some (VReal 75) /\
      tbl_transactions w' = tbl_transactions (faulty_bank [false; false; true]) /\
      log w' = log (faulty_bank [false; false; true]) ++ [ERROR; INFO]).
Proof.
  apply (balance_change_survives_ledger_fault (P := sample_platform)
           "alice" "current" 25 100 (faulty_bank [false; false; true]) []);
    [reflexivity | left; reflexivity | reflexivity | reflexivity].
Defined.

Lemma ledger_records_a_lost_write_witness :
  exists w',
    Actions.deposit_into_account (P := sample_platform) "alice" 25 "current"
                                 (faulty_bank [false; true])
      = (Ok tt, w') /\
    balance_of "current" "alice" w' = Some (VReal 100) /\
    balance_of (other "current") "alice" w'
    = balance_of (other "current") "alice" (faulty_bank [false; true]) /\
    tbl_transactions w'
    = tbl_transactions (faulty_bank [false; true])
      ++ [mkTransaction (next_transaction_id (faulty_bank [false; true])) "alice"
                        "deposit" 25 "current" (clock (faulty_bank [false; true]))].
Proof.
  apply (ledger_records_a_lost_write (P := sample_platform)
           "alice" "current" 25 100 (faulty_bank [false; true]) []);
    [reflexivity | left; reflexivity | reflexivity | discriminate | reflexivity].
Defined.

Lemma transfer_interrupted_halfway_witness :
  (exists w',
      Actions.transfer_between_accounts (P := sample_platform) "alice" 10 "current"
                                        (faulty_bank [false; false; true])
        = (Raise TypeError, w') /\
      balance_of "current" "alice" w' = Some (VReal 90) /\
      balance_of "savings" "alice" w' = Some (VReal 50) /\
      tbl_transactions w' = tbl_transactions (faulty_bank [false; false; true])) /\
  (exists w',
      Actions.transfer_between_accounts (P := sample_platform) "alice" 10 "savings"
                                        (faulty_bank [false; false; true])
        = (Raise TypeError, w') /\
      balance_of "current" "alice" w' = Some (VReal 110) /\
      balance_of "savings" "alice" w' = Some (VReal 50) /\
      tbl_transactions w' = tbl_transactions (faulty_bank [false; false; true])).
Proof.
  apply (transfer_interrupted_halfway (P := sample_platform)
           "alice" 10 100 50 (faulty_bank [false; false; true]) []);
    reflexivity.
Defined.

Lemma log_transaction_twice_witness :
  exists w1 w2 id1 id2,
    TransactionsDB.log_transaction "alice" "deposit" 25 "current" stale_bank
      = (Ok tt, w1) /\
    TransactionsDB.log_transaction "alice" "deposit" 25 "current" (tick 60 w1)
      = (Ok tt, w2) /\
    tbl_transactions w2
    = tbl_transactions stale_bank
      ++ [mkTransaction id1 "alice" "deposit" 25 "current" (clock stale_bank);
          mkTransaction id2 "alice" "deposit" 25 "current" (clock stale_bank + 60)] /\
    id1 < id2 /\
    Forall (fun t => txn_id t < id1) (tbl_transactions stale_bank).
Proof.
  exact (log_transaction_twice "alice" "deposit" "current" 25 60 stale_bank
           eq_refl).
Defined.

Lemma appended_record_is_listed_witness :
  exists w' record,
    TransactionsDB.log_transaction "alice" "deposit" 25 "current" bank = (Ok tt, w') /\
    record = mkTransaction (next_transaction_id bank) "alice" "deposit" 25 "current"
                           (clock bank) /\
    forall seconds,
      exists rows,
        TransactionsDB.get_transactions "alice" (tick seconds w')
        = (Ok rows, tick seconds w') /\
        (0 <= seconds <= 7 * 86400 -> In record rows) /\
        (8 * 86400 <= seconds -> ~ In record rows).
Proof.
  exact (appended_record_is_listed "alice" "deposit" "current" 25 bank eq_refl).
Defined.

Lemma store_fault_at_balance_read_witness :
  exists w',
    Actions.deposit_into_account (P := sample_platform) "alice" 25 "current"
                                 (faulty_bank [true])
      = (Raise TypeError, w') /\
    Actions.withdraw_from_account (P := sample_platform) "alice" 25 "current"
                                  (faulty_bank [true])
      = (Raise TypeError, w') /\
    Actions.transfer_between_accounts (P := sample_platform) "alice" 25 "current"
                                      (faulty_bank [true])
      = (Raise TypeError, w') /\
    read_only (faulty_bank [true]) w' /\
    log w' = log (faulty_bank [true]) ++ [ERROR].
Proof.
  apply (store_fault_at_balance_read (P := sample_platform)
           "alice" "current" 25 (faulty_bank [true]));
    [reflexivity | left; reflexivity | exists []; reflexivity].
Defined.

(** ** Writes to the identity columns *)

Lemma matches_sql_eqb (username : string) (r : account) :
  Sqlite.sql_eqb (acc_username r) (VText username) = Sqlite.matches username r.
Proof. unfold Sqlite.matches. destruct (acc_username r); reflexivity. Qed.

Lemma no_conflict_with_free_name (username new_name : string) (tbl : list account) :
  existsb (Sqlite.matches new_name) tbl = false ->
  existsb (fun r => negb (Sqlite.matches username r)
                    && Sqlite.sql_eqb (Sqlite.cell Sqlite.Cusername r) (VText new_name))
          tbl = false.
Proof.
  induction tbl as [| r tbl IH]; [reflexivity |]. cbn.
  intros H. apply orb_false_iff in H. destruct H as [Hr Ht].
  rewrite matches_sql_eqb, Hr, andb_false_r. cbn. exact (IH Ht).
Qed.

Lemma find_renamed (username new_name : string) (tbl : list account) :
  username <> new_name ->
  existsb (Sqlite.matches new_name) tbl = false ->
  find (Sqlite.matches new_name)
       (Sqlite.updated_rows Sqlite.Cusername username (VText new_name) tbl)
  = option_map (Sqlite.store Sqlite.Cusername (VText new_name))
               (find (Sqlite.matches username) tbl)
  /\
  find (Sqlite.matches username)
       (Sqlite.updated_rows Sqlite.Cusername username (VText new_name) tbl)
  = None.
Proof.
  intros Hne. unfold Sqlite.updated_rows.
  induction tbl as [| r tbl IH]; [split; reflexivity |].
  cbn [existsb map find]. intros H. apply orb_false_iff in H.
  destruct H as [Hr Ht]. destruct (IH Ht) as [IH1 IH2].
  destruct (Sqlite.matches username r) eqn:Em.
  - assert (Hnew : Sqlite.matches new_name
                     (Sqlite.store Sqlite.Cusername (VText new_name) r) = true).
    { unfold Sqlite.matches. cbn. apply String.eqb_refl. }
    assert (Hold : Sqlite.matches username
                     (Sqlite.store Sqlite.Cusername (VText new_name) r) = false).
    { unfold Sqlite.matches. cbn. apply String.eqb_neq. congruence. }
    rewrite Hnew, Hold. split; [reflexivity | exact IH2].
  - rewrite Hr, Em. split; assumption.
Qed.

Section IdentityColumns.
Context {P : Platform}.

(** X17. Writes the schema forbids.  On a healthy store, for a user with an
    account, writing NULL to [username], [display_name] or [password_hash], or
    writing to [username] the name of another account, raises
    [sqlite3.IntegrityError], which [set_column_from_username] does not catch,
    and leaves the world as it was. *)
Theorem forbidden_write_raises :
  forall (username : string) (w : world),
    healthy w ->
    account_of username w <> None ->
    (forall column,
        In column ["username"; "display_name"; "password_hash"] ->
        UsersDB.set_column_from_username column username VNull w
        = (Raise IntegrityError, w)) /\
    (forall taken,
        taken <> username ->
        account_of taken w <> None ->
        UsersDB.set_column_from_username "username" username (VText taken) w
        = (Raise IntegrityError, w)).
Proof.
  intros username w Hh Ha. unfold account_of in Ha.
  destruct (find (Sqlite.matches username) (tbl_accounts w)) as [r |] eqn:E;
    [| contradiction].
  pose proof (find_existsb _ _ _ E) as Ex. split.
  - intros column Hin. cbn in Hin.
    destruct Hin as [<- | [<- | [<- | []]]];
      unfold UsersDB.set_column_from_username;
      cbn [contains UsersDB.ALLOWED_COLUMNS existsb String.eqb Ascii.eqb Bool.eqb
           orb andb negb];
      unfold try_except_OperationalError, Sqlite.update_account, bind, lift;
      cbn [Sqlite.resolve String.eqb Ascii.eqb Bool.eqb Sqlite.bind];
      rewrite (execute_healthy w Hh); cbn; rewrite Ex; reflexivity.
  - intros taken Hne Ht. unfold account_of in Ht.
    destruct (find (Sqlite.matches taken) (tbl_accounts w)) as [r2 |] eqn:E2;
      [| contradiction].
    apply find_some in E2. destruct E2 as [Hin2 Hm2].
    assert (Hc : Sqlite.conflicts Sqlite.Cusername username (VText taken)
                                  (tbl_accounts w) = true).
    { unfold Sqlite.conflicts. cbn [Sqlite.unique andb].
      apply orb_true_iff. left. apply existsb_exists. exists r2.
      split; [exact Hin2 |]. cbn [Sqlite.cell].
      rewrite matches_sql_eqb, Hm2, andb_true_r.
      apply negb_true_iff.
      destruct (Sqlite.matches username r2) eqn:Em; [| reflexivity].
      exfalso. apply Hne. exact (matches_exclusive _ _ _ Hm2 Em). }
    unfold UsersDB.set_column_from_username.
    cbn [contains UsersDB.ALLOWED_COLUMNS existsb String.eqb Ascii.eqb Bool.eqb
         orb andb negb].
    unfold try_except_OperationalError, Sqlite.update_account, bind, lift.
    cbn [Sqlite.resolve String.eqb Ascii.eqb Bool.eqb Sqlite.bind].
    rewrite (execute_healthy w Hh). cbn. rewrite Ex. cbn.
    cbn in Hc. rewrite Hc. reflexivity.
Qed.

(** X18. The username can be rewritten.  [username] is in the allow-list, so
    on a healthy store where no username has two rows a write of a free name
    to the [username] column of an account returns, and the account, with its
    id, display name, password hash and both balances, is found under the new
    name and no longer under the old one. *)
Theorem username_can_be_rewritten :
  forall (username new_name : string) (w : world) (r : account),
    healthy w ->
    unique_usernames w ->
    account_of username w = Some r ->
    account_of new_name w = None ->
    exists w',
      UsersDB.set_column_from_username "username" username (VText new_name) w
        = (Ok tt, w') /\
      account_of new_name w'
      = Some (mkAccount (acc_id r) (VText new_name) (acc_display_name r)
                        (acc_password_hash r) (acc_current_balance r)
                        (acc_savings_balance r)) /\
      account_of username w' = None.
Proof.
  intros username new_name w r Hh Hu Ha Hn.
  assert (Hne : username <> new_name).
  { intros ->. rewrite Ha in Hn. discriminate. }
  unfold account_of in Ha, Hn.
  pose proof (find_existsb _ _ _ Ha) as Ex.
  pose proof (find_none_existsb _ _ Hn) as En.
  assert (Hc : Sqlite.conflicts Sqlite.Cusername username (VText new_name)
                                (tbl_accounts w) = false).
  { unfold Sqlite.conflicts. cbn [Sqlite.unique andb].
    rewrite (no_conflict_with_free_name username new_name _ En). cbn.
    apply Z.ltb_ge. specialize (Hu username). lia. }
  destruct (find_renamed username new_name (tbl_accounts w) Hne En) as [F1 F2].
  exists (after_update "username" Sqlite.Cusername username (VText new_name) w).
  split.
  - unfold UsersDB.set_column_from_username.
    cbn [contains UsersDB.ALLOWED_COLUMNS existsb String.eqb Ascii.eqb Bool.eqb
         orb andb negb].
    unfold try_except_OperationalError, Sqlite.update_account, bind, lift.
    cbn [Sqlite.resolve String.eqb Ascii.eqb Bool.eqb Sqlite.bind].
    rewrite (execute_healthy w Hh). cbn. rewrite Ex. cbn.
    cbn in Hc. rewrite Hc. reflexivity.
  - split.
    + unfold account_of. cbn. rewrite F1, Ha. reflexivity.
    + unfold account_of. cbn. exact F2.
Qed.

End IdentityColumns.

Lemma forbidden_write_raises_witness :
  (forall column,
      In column ["username"; "display_name"; "password_hash"] ->
      UsersDB.set_column_from_username (P := sample_platform) column "alice" VNull bank
      = (Raise IntegrityError, bank)) /\
  (forall taken,
      taken <> "alice" ->
      account_of taken bank <> None ->
      UsersDB.set_column_from_username (P := sample_platform) "username" "alice"
                                       (VText taken) bank
      = (Raise IntegrityError, bank)).
Proof.
  apply (forbidden_write_raises (P := sample_platform) "alice" bank).
  - reflexivity.
  - discriminate.
Defined.

Lemma username_can_be_rewritten_witness :
  exists w',
    UsersDB.set_column_from_username (P := sample_platform) "username" "alice"
                                     (VText "alicia") bank
      = (Ok tt, w') /\
    account_of "alicia" w'
    = Some (mkAccount (acc_id alice) (VText "alicia") (acc_display_name alice)
                      (acc_password_hash alice) (acc_current_balance alice)
                      (acc_savings_balance alice)) /\
    account_of "alice" w' = None.
Proof.
  apply (username_can_be_rewritten (P := sample_platform) "alice" "alicia" bank alice).
  - reflexivity.
  - intros looked_up.
    change (length (if Sqlite.matches looked_up alice then [alice] else []) <= 1)%nat.
    destruct (Sqlite.matches looked_up alice); cbn; lia.
  - reflexivity.
  - reflexivity.
Defined.

(** ** An amount that is not a number *)

Lemma nan_as_spec (x : float) : is_nan x = true -> Prim2SF x = S754_nan.
Proof.
  unfold is_nan. rewrite FloatAxioms.eqb_spec. unfold SFeqb.
  destruct (Prim2SF x) as [s | s | | s m e]; cbn; try reflexivity;
    try (destruct s; cbn; discriminate).
  destruct s; cbn; rewrite ?Z.compare_refl, ?Pos.compare_refl; cbn;
    rewrite ?Pos.compare_refl; cbn; discriminate.
Qed.

Lemma spec_as_nan (x : float) : Prim2SF x = S754_nan -> is_nan x = true.
Proof.
  intros H. unfold is_nan. rewrite FloatAxioms.eqb_spec, H. reflexivity.
Qed.

(** [nan <= 0] is [False]: the amount check lets a NaN through. *)
Lemma nan_passes_check (value : float) :
  is_nan value = true -> (value <=? 0)%float = false.
Proof.
  intros H. rewrite leb_spec, (nan_as_spec value H). reflexivity.
Qed.

Lemma add_nan (x y : float) : is_nan y = true -> is_nan (x + y) = true.
Proof.
  intros H. apply spec_as_nan. rewrite add_spec, (nan_as_spec y H).
  unfold SF64add, SFadd. destruct (Prim2SF x) as [s | s | | s m e]; reflexivity.
Qed.

Lemma opp_nan (x : float) : is_nan x = true -> is_nan (- x) = true.
Proof.
  intros H. apply spec_as_nan. rewrite opp_spec, (nan_as_spec x H). reflexivity.
Qed.

Lemma stored_nan (x : float) : is_nan x = true -> Sqlite.stored x = VNull.
Proof. unfold Sqlite.stored. intros H. rewrite H. reflexivity. Qed.

Section NotANumber.
Context {P : Platform}.

Lemma add_balance_run (selector username : string) (delta old : float) (w : world) :
  valid_selector selector ->
  healthy w ->
  balance_of selector username w = Some (VReal old) ->
  add_balance selector username delta w
  = (Ok tt,
     after_update (fst (balance_column selector)) (snd (balance_column selector))
                  username (Sqlite.stored (old + delta)) w).
Proof.
  intros [-> | ->] Hh Hb.
  - exact (add_current_balance_run username delta w old Hh Hb).
  - exact (add_savings_balance_run username delta w old Hh Hb).
Qed.

Lemma other_after_update (selector username : string) (v : value) (w : world) :
  valid_selector selector ->
  balance_of (other selector) username
    (after_update (fst (balance_column selector)) (snd (balance_column selector))
                  username v w)
  = balance_of (other selector) username w.
Proof.
  intros [-> | ->].
  - apply savings_after_update_current.
  - apply current_after_update_savings.
Qed.

Lemma read_balance_null (selector username : string) (w : world) :
  valid_selector selector ->
  healthy w ->
  balance_of selector username w = Some VNull ->
  read_balance selector username w = (Raise TypeError, w).
Proof.
  intros [-> | ->] Hh Hb.
  - exact (get_current_balance_cell username w VNull Hh Hb).
  - exact (get_savings_balance_cell username w VNull Hh Hb).
Qed.

(** X19. A NaN passes the amount check and wipes the balance.  [nan <= 0] is
    [False], so a deposit or withdrawal of NaN is not rejected as an invalid
    amount.  On a healthy store, for a user whose selected balance is a
    number, the balance update runs first and stores NULL (the sum is NaN,
    which is bound as NULL); the ledger append then fails on the NOT NULL
    [amount] column and the call raises [sqlite3.IntegrityError].  The
    balance stays NULL, the other balance and the ledger are what they were,
    and the next read of the balance raises [TypeError] ([float(None)]). *)
Theorem nan_amount_wipes_the_balance :
  forall (username selector : string) (amount old : float) (w : world),
    is_nan amount = true ->
    valid_selector selector ->
    healthy w ->
    balance_of selector username w = Some (VReal old) ->
    exists w',
      Actions.deposit_into_account username amount selector w
        = (Raise IntegrityError, w') /\
      Actions.withdraw_from_account username amount selector w
        = (Raise IntegrityError, w') /\
      balance_of selector username w' = Some VNull /\
      balance_of (other selector) username w' = balance_of (other selector) username w /\
      tbl_transactions w' = tbl_transactions w /\
      read_balance selector username w' = (Raise TypeError, w').
Proof.
  intros username selector amount old w Hn Hsel Hh Hb.
  pose proof (balance_account _ _ _ _ Hb) as Ha.
  set (w' := after_update (fst (balance_column selector))
                          (snd (balance_column selector)) username VNull w).
  assert (Hh' : healthy w') by exact Hh.
  assert (Hd : add_balance selector username amount w = (Ok tt, w')).
  { rewrite (add_balance_run selector username amount old w Hsel Hh Hb).
    rewrite (stored_nan _ (add_nan old amount Hn)). reflexivity. }
  assert (Hw : add_balance selector username (- amount) w = (Ok tt, w')).
  { rewrite (add_balance_run selector username (- amount) old w Hsel Hh Hb).
    rewrite (stored_nan _ (add_nan old (- amount) (opp_nan amount Hn))).
    reflexivity. }
  assert (Hnull : balance_of selector username w' = Some VNull).
  { apply balance_after_update. exact Ha. }
  exists w'. split; [| split; [| split; [| split; [| split]]]].
  - unfold Actions.deposit_into_account. rewrite (nan_passes_check amount Hn).
    destruct Hsel as [-> | ->];
      cbn [contains existsb String.eqb Ascii.eqb Bool.eqb orb andb negb];
      (erewrite bind_ok by exact Hd); cbv beta;
      (erewrite bind_raise by (apply log_transaction_nan; [exact Hn | exact Hh']));
      reflexivity.
  - unfold Actions.withdraw_from_account. rewrite (nan_passes_check amount Hn).
    destruct Hsel as [-> | ->];
      cbn [contains existsb String.eqb Ascii.eqb Bool.eqb orb andb negb];
      (erewrite bind_ok by exact Hw); cbv beta;
      (erewrite bind_raise by (apply log_transaction_nan; [exact Hn | exact Hh']));
      reflexivity.
  - exact Hnull.
  - apply other_after_update. exact Hsel.
  - reflexivity.
  - apply read_balance_null; assumption.
Qed.

End NotANumber.

Lemma nan_amount_wipes_the_balance_witness :
  exists w',
    Actions.deposit_into_account (P := sample_platform) "alice" nan "current" bank
      = (Raise IntegrityError, w') /\
    Actions.withdraw_from_account (P := sample_platform) "alice" nan "current" bank
      = (Raise IntegrityError, w') /\
    balance_of "current" "alice" w' = Some VNull /\
    balance_of (other "current") "alice" w' = balance_of (other "current") "alice" bank /\
    tbl_transactions w' = tbl_transactions bank /\
    read_balance (P := sample_platform) "current" "alice" w' = (Raise TypeError, w').
Proof.
  apply (nan_amount_wipes_the_balance (P := sample_platform)
           "alice" "current" nan 100 bank);
    [reflexivity | left; reflexivity | reflexivity | reflexivity].
Defined.
